(** * aioyookassa.types.payment: the payment schema and its validation

    [payment.py] declares the entities of the payment API as pydantic
    classes: every class is a list of attributes, each with a declared type,
    an optional default and an optional alias (the key used on the wire).
    The classes carry no code of their own; what they do is what pydantic's
    [BaseModel] does with the declarations when a class is called on the
    items of a payload, passed as keyword arguments.

    The development has three layers:
    - the Python values a payload is made of, and the values of a validated
      entity;
    - the declarations of [payment.py], class by class, attribute by
      attribute, in the order of the source;
    - the construction of an entity from a payload, and its serialisation by
      alias, as [BaseModel] performs them on such declarations.

    Of [BaseModel] the model keeps what holds with the default configuration
    (the module sets none): an attribute is read under its alias when it has
    one, and under its name otherwise; a key the class does not declare is
    ignored; an absent attribute takes its default, which is not validated,
    and is reported missing when it has none; a value that is an instance of
    the declared type is kept as it is; the errors of all attributes are
    collected, each under the path of keys and indices that leads to it, and
    an entity is built only when there is none.

    Three things [payment.py] does not fix are parameters: the members of
    the enumerations (module [enum] is imported, its text is not part of the
    sources at hand), the major version of pydantic (1.x and 2.x differ on
    the unions and on [None] defaults), and the conversions the library
    applies to a value that is not already of the declared type. *)

From Stdlib Require Import List String Ascii ZArith Bool Lia QArith Qabs Permutation.
From Stdlib Require Import Floats.SpecFloat.
Import ListNotations.

#[local] Set Warnings "-register-all".

Local Open Scope string_scope.
Local Open Scope Z_scope.

(** ** Python values *)

(** [datetime.datetime]: the calendar fields and, when the value is aware,
    the offset of its time zone in minutes. *)
Record datetime := mk_datetime {
  year : Z; month : Z; day : Z;
  hour : Z; minute : Z; second : Z; microsecond : Z;
  tzoffset : option Z
}.

(** The values a payload holds: what [json.loads] produces, and [datetime]
    objects, which a caller may pass as they are.  A [float] is a binary64
    number. *)
Inductive pyval : Type :=
| PNone
| PBool (b : bool)
| PInt (z : Z)
| PFloat (f : spec_float)
| PStr (s : string)
| PDatetime (d : datetime)
| PList (l : list pyval)
| PDict (kvs : list (string * pyval)).

(** A [dict] with string keys, in insertion order; [dict_get] is [d.get(k)]. *)
Definition pydict := list (string * pyval).

Fixpoint dict_get {A : Type} (k : string) (d : list (string * A)) : option A :=
  match d with
  | [] => None
  | (k', v) :: d' => if String.eqb k k' then Some v else dict_get k d'
  end.

(** The enumerations [payment.py] imports from [.enum]. *)
Inductive enum_class :=
| PaymentStatus | ReceiptRegistration | CancellationParty
| CancellationReason | ConfirmationType.

(** The values of a validated entity.  An instance of a model class is the
    list of its attributes, by canonical name, in declaration order. *)
Inductive value : Type :=
| VNone
| VBool (b : bool)
| VInt (z : Z)
| VFloat (f : spec_float)
| VStr (s : string)
| VDatetime (d : datetime)
| VEnum (e : enum_class) (member : string)
| VDict (kvs : pydict)
| VList (l : list value)
| VModel (attrs : list (string * value)).

(** [e.name]: attribute access on an entity. *)
Definition attr (name : string) (e : value) : option value :=
  match e with
  | VModel attrs => dict_get name attrs
  | _ => None
  end.

(** ** Validation errors *)

(** A location is a path of keys and list indices, as in [ValidationError]. *)
Inductive loc_item := LKey (k : string) | LIdx (i : nat).

Inductive error_kind :=
| Missing          (* a mandatory key is absent *)
| NoneNotAllowed   (* [None] where the declared type has no [None] *)
| NotAMember       (* not a value of the enumeration *)
| Invalid.         (* not a value of the declared type *)

Definition error := (list loc_item * error_kind)%type.

Inductive result (A : Type) : Type :=
| Ok (a : A)
| Err (es : list error).
Arguments Ok {A} a.
Arguments Err {A} es.

Definition is_ok {A} (r : result A) : bool :=
  match r with Ok _ => true | Err _ => false end.

Definition errors_of {A} (r : result A) : list error :=
  match r with Ok _ => [] | Err es => es end.

(** Errors found below a key or an index are reported under it. *)
Definition under {A} (i : loc_item) (r : result A) : result A :=
  match r with
  | Ok a => Ok a
  | Err es => Err (map (fun e : error => (i :: fst e, snd e)) es)
  end.

(** ** Declarations *)

(** One attribute of a class: [name: ty = Field(default, alias=alias)].
    [fdefault = None] is a declaration without default (or with [...]). *)
Record field_of (T : Type) := mk_field {
  fname : string;
  fty : T;
  fdefault : option value;
  falias : option string
}.
Arguments mk_field {T} _ _ _ _.
Arguments fname {T} _.
Arguments fty {T} _.
Arguments fdefault {T} _.
Arguments falias {T} _.

(** The declared type of an attribute. *)
Inductive ftype : Type :=
| TStr                         (* str *)
| TBool                        (* bool *)
| TInt                         (* int *)
| TIntOrFloat                  (* int | float *)
| TDatetime                    (* datetime.datetime *)
| TDict                        (* dict *)
| TEnum (e : enum_class)       (* one of the enumerations of .enum *)
| TOptional (t : ftype)        (* t | None *)
| TList (t : ftype)            (* List[t] *)
| TModel (fields : list (field_of ftype)).   (* a model class *)

Definition field := field_of ftype.
Definition model := list field.

(** The key of an attribute in a payload: its alias when it has one. *)
Definition wire (f : field) : string :=
  match falias f with
  | Some a => a
  | None => fname f
  end.

(** [name: ty] *)
Definition required (name : string) (ty : ftype) : field :=
  mk_field name ty None None.

(** [name: ty = None] *)
Definition optional (name : string) (ty : ftype) : field :=
  mk_field name ty (Some VNone) None.

(** [name: ty = Field(default, alias=alias)]; [Field(..., alias=alias)] is
    [Field name ty None alias]. *)
Definition Field (name : string) (ty : ftype) (default : option value)
    (alias : string) : field :=
  mk_field name ty default (Some alias).

(** *** The classes of payment.py *)

Definition Confirmation : model :=
  [ required "type" (TEnum ConfirmationType);
    optional "enforce" (TOptional TBool);
    optional "locale" (TOptional TStr);
    optional "return_url" (TOptional TStr);
    Field "url" (TOptional TStr) (Some VNone) "confirmation_url" ].

Definition PaymentAmount : model :=
  [ required "value" TIntOrFloat;
    required "currency" TStr ].

Definition Recipient : model :=
  [ required "account_id" TStr;
    required "gateway_id" TStr ].

Definition PayerBankDetails : model :=
  [ required "full_name" TStr;
    required "short_name" TStr;
    required "address" TStr;
    required "inn" TStr;
    required "bank_name" TStr;
    required "bank_branch" TStr;
    required "bank_bik" TStr;
    required "bank_account" TStr;
    optional "kpp" (TOptional TStr) ].

Definition VatData : model :=
  [ required "type" TStr;
    optional "amount" (TOptional (TModel PaymentAmount));
    optional "rate" (TOptional TStr) ].

Definition CardInfo : model :=
  [ Field "first_six" (TOptional TStr) (Some VNone) "first6";
    Field "last_four" TStr None "last4";
    required "expiry_year" TStr;
    required "expiry_month" TStr;
    required "card_type" TStr;
    Field "card_country" (TOptional TStr) (Some VNone) "issuer_country";
    Field "bank_name" (TOptional TStr) (Some VNone) "issuer_name";
    optional "source" (TOptional TStr) ].

Definition PaymentMethod : model :=
  [ required "type" TStr;
    required "id" TStr;
    required "saved" TBool;
    optional "title" (TOptional TStr);
    optional "login" (TOptional TStr);
    optional "card" (TOptional (TModel CardInfo));
    optional "phone" (TOptional TStr);
    optional "payer_bank_details" (TOptional (TModel PayerBankDetails));
    optional "payment_purpose" (TOptional TStr);
    optional "vat_data" (TOptional (TModel VatData));
    optional "account_number" (TOptional TStr) ].

Definition CancellationDetails : model :=
  [ required "party" (TEnum CancellationParty);
    required "reason" (TEnum CancellationReason) ].

Definition ThreeDSInfo : model :=
  [ required "applied" TBool ].

Definition AuthorizationDetails : model :=
  [ Field "transaction_identifier" (TOptional TStr) (Some VNone) "rrn";
    Field "authorization_code" (TOptional TStr) (Some VNone) "auth_code";
    required "three_d_secure" (TModel ThreeDSInfo) ].

Definition Transfer : model :=
  [ required "account_id" TStr;
    required "amount" (TModel PaymentAmount);
    required "status" (TEnum PaymentStatus);
    Field "fee_amount" (TModel PaymentAmount) (Some VNone) "platform_fee_amount";
    optional "description" (TOptional TStr);
    optional "metadata" (TOptional TDict) ].

Definition Settlement : model :=
  [ required "type" TStr;
    required "amount" (TModel PaymentAmount) ].

Definition Deal : model :=
  [ required "id" TStr;
    required "settlements" (TList (TModel PaymentAmount)) ].

Definition Payment : model :=
  [ required "id" TStr;
    required "status" (TEnum PaymentStatus);
    required "amount" (TModel PaymentAmount);
    optional "income_amount" (TOptional (TModel PaymentAmount));
    optional "description" (TOptional TStr);
    required "recipient" (TModel Recipient);
    optional "payment_method" (TOptional (TModel PaymentMethod));
    optional "captured_at" (TOptional TDatetime);
    required "created_at" TDatetime;
    optional "expires_at" (TOptional TDatetime);
    optional "confirmation" (TOptional (TModel Confirmation));
    required "test" TBool;
    optional "refunded_amount" (TOptional (TModel PaymentAmount));
    required "paid" TBool;
    required "refundable" TBool;
    optional "receipt_registration" (TOptional (TEnum ReceiptRegistration));
    optional "metadata" (TOptional TDict);
    optional "cancellation_details" (TOptional (TModel CancellationDetails));
    optional "authorization_details" (TOptional (TModel AuthorizationDetails));
    optional "transfers" (TOptional (TList (TModel Transfer)));
    optional "deal" (TOptional (TModel Deal));
    optional "merchant_customer_id" (TOptional TStr) ].

Definition PaymentsList : model :=
  [ Field "list" (TList (TModel Payment)) (Some (VList [])) "items";
    optional "cursor" (TOptional TStr) ].

Definition Customer : model :=
  [ optional "full_name" (TOptional TStr);
    optional "inn" (TOptional TStr);
    optional "email" (TOptional TStr);
    optional "phone" (TOptional TStr) ].

Definition MarkQuantity : model :=
  [ required "numerator" TInt;
    required "denominator" TInt ].

Definition MarkCodeInfo : model :=
  [ Field "code" (TOptional TStr) (Some VNone) "mark_code_raw";
    optional "unknown" (TOptional TStr);
    optional "ean_8" (TOptional TStr);
    optional "ean_13" (TOptional TStr);
    optional "itf_14" (TOptional TStr);
    optional "gs_10" (TOptional TStr);
    optional "gs_1m" (TOptional TStr);
    optional "short" (TOptional TStr);
    optional "fur" (TOptional TStr);
    optional "egais_20" (TOptional TStr);
    optional "egais_30" (TOptional TStr) ].

Definition IndustryDetails : model :=
  [ required "federal_id" TStr;
    required "document_date" TDatetime;
    required "document_number" TStr;
    required "value" TStr ].

Definition PaymentItem : model :=
  [ required "description" TStr;
    required "amount" (TModel PaymentAmount);
    required "vat_code" TInt;
    required "quantity" TStr;
    optional "measure" (TOptional TStr);
    optional "mark_quantity" (TOptional (TModel MarkQuantity));
    optional "payment_subject" (TOptional TStr);
    optional "payment_mode" (TOptional TStr);
    optional "country_of_origin_code" (TOptional TStr);
    optional "customs_declaration_number" (TOptional TStr);
    optional "excise" (TOptional TStr);
    optional "product_code" (TOptional TStr);
    optional "mark_code_info" (TOptional (TModel MarkCodeInfo));
    optional "mark_mode" (TOptional TStr);
    optional "payment_subject_industry_details" (TOptional (TModel IndustryDetails)) ].

Definition OperationDetails : model :=
  [ Field "id" TInt None "operation_id";
    required "value" TStr;
    required "created_at" TDatetime ].

Definition Receipt : model :=
  [ optional "customer" (TOptional (TModel Customer));
    required "items" (TList (TModel PaymentItem));
    optional "phone" (TOptional TStr);
    optional "email" (TOptional TStr);
    optional "tax_system_code" (TOptional TInt);
    optional "receipt_industry_details" (TOptional (TModel IndustryDetails));
    optional "receipt_operation_details" (TOptional (TModel OperationDetails)) ].

Definition Passenger : model :=
  [ required "first_name" TStr;
    required "last_name" TStr ].

Definition Flight : model :=
  [ required "departure_airport" TStr;
    required "arrival_airport" TStr;
    required "departure_date" TDatetime;
    optional "carrier_code" (TOptional TStr) ].

Definition Airline : model :=
  [ optional "ticket_number" (TOptional TStr);
    optional "booking_reference" (TOptional TStr);
    optional "passengers" (TOptional (TList (TModel Passenger)));
    Field "flights" (TOptional (TList (TModel Flight))) (Some VNone) "legs" ].

(** Every class of the module, by name. *)
Definition models : list (string * model) :=
  [ ("Confirmation", Confirmation); ("PaymentAmount", PaymentAmount);
    ("Recipient", Recipient); ("PayerBankDetails", PayerBankDetails);
    ("VatData", VatData); ("CardInfo", CardInfo);
    ("PaymentMethod", PaymentMethod);
    ("CancellationDetails", CancellationDetails);
    ("ThreeDSInfo", ThreeDSInfo);
    ("AuthorizationDetails", AuthorizationDetails);
    ("Transfer", Transfer); ("Settlement", Settlement); ("Deal", Deal);
    ("Payment", Payment); ("PaymentsList", PaymentsList);
    ("Customer", Customer); ("MarkQuantity", MarkQuantity);
    ("MarkCodeInfo", MarkCodeInfo); ("IndustryDetails", IndustryDetails);
    ("PaymentItem", PaymentItem); ("OperationDetails", OperationDetails);
    ("Receipt", Receipt); ("Passenger", Passenger); ("Flight", Flight);
    ("Airline", Airline) ].

(** ** Numbers *)

(** [float] is IEEE 754 binary64. *)
Definition prec : Z := 53.
Definition emax : Z := 1024.

(** The least exponent of a [float]: [2 ^ emin] is the least positive one. *)
Definition emin : Z := 3 - emax - prec.

(** [n / d] over [2 ^ e], as a ratio of integers. *)
Definition scaled (e n d : Z) : Z * Z :=
  if 0 <=? e then (n, d * 2 ^ e) else (n * 2 ^ (- e), d).

(** [2 ^ k <= n / d]. *)
Definition pow2_le (k n d : Z) : bool :=
  let '(N, D) := scaled k n d in D <=? N.

(** The [k] with [2 ^ (k - 1) <= n / d < 2 ^ k], for [0 < n] and [0 < d]. *)
Definition mag (n d : Z) : Z :=
  let k := Z.log2 n - Z.log2 d in
  if pow2_le k n d then k + 1 else k.

(** The integer nearest to [N / D], the even one of two that are as near. *)
Definition round_half_even (N D : Z) : Z :=
  let q := N / D in
  match 2 * (N mod D) ?= D with
  | Lt => q
  | Gt => q + 1
  | Eq => if Z.even q then q else q + 1
  end.

(** What [float(s)] returns on a decimal literal that stands for [n / d],
    [0 <= n] and [0 < d]: the ratio is rounded to [prec] bits, or to the
    multiple of [2 ^ emin] when it is below the normal range, ties going to
    the even mantissa; a ratio beyond the range gives an infinity. *)
Definition float_of_ratio (neg : bool) (n d : Z) : spec_float :=
  if n =? 0 then S754_zero neg
  else
    let e := Z.max (mag n d - prec) emin in
    let '(N, D) := scaled e n d in
    let M := round_half_even N D in
    if M =? 0 then S754_zero neg
    else if M =? 2 ^ prec then
      if e + 1 <=? emax - prec
      then S754_finite neg (Z.to_pos (2 ^ (prec - 1))) (e + 1)
      else S754_infinity neg
    else
      if e <=? emax - prec then S754_finite neg (Z.to_pos M) e
      else S754_infinity neg.

(** The same ratio rounded by the division of the Standard Library's
    specification of IEEE 754. *)
Definition ieee_division (neg : bool) (n d : Z) : spec_float :=
  if n =? 0 then S754_zero neg
  else
    let '(q, e, l) := SFdiv_core_binary prec emax n 0 d 0 in
    binary_round_aux prec emax neg q e l.

(** [int(f)] on a [float]: truncation towards zero; infinities and NaN have
    no integer. *)
Definition float_trunc (f : spec_float) : option Z :=
  match f with
  | S754_zero _ => Some 0
  | S754_finite s m e =>
      let a := if 0 <=? e then Zpos m * 2 ^ e else Zpos m / 2 ^ (- e) in
      Some (if s then - a else a)
  | S754_infinity _ | S754_nan => None
  end.

(** The rational a finite [float] stands for. *)
Definition float_value (f : spec_float) : option Q :=
  match f with
  | S754_zero _ => Some 0%Q
  | S754_finite s m e =>
      let a := if 0 <=? e then inject_Z (Zpos m * 2 ^ e)
               else Qmake (Zpos m) (Z.to_pos (2 ^ (- e))) in
      Some (if s then Qopp a else a)
  | S754_infinity _ | S754_nan => None
  end.




(** The rational a stored amount stands for. *)
Definition numeric_value (x : value) : option Q :=
  match x with
  | VInt z => Some (inject_Z z)
  | VFloat f => float_value f
  | _ => None
  end.

(** *** Decimal literals *)

Definition digit_of_ascii (c : ascii) : option Z :=
  let n := Z.of_N (N_of_ascii c) in
  if (48 <=? n) && (n <=? 57) then Some (n - 48) else None.

(** [digits acc s]: the number written by the digits [s] after the digits
    already read as [acc]; [None] when [s] has another character. *)
Fixpoint digits (acc : Z) (s : string) : option Z :=
  match s with
  | EmptyString => Some acc
  | String c s' =>
      match digit_of_ascii c with
      | Some d => digits (10 * acc + d) s'
      | None => None
      end
  end.

(** A non-empty run of digits. *)
Definition digit_run (s : string) : option Z :=
  match s with
  | EmptyString => None
  | _ => digits 0 s
  end.

(** [split_dot s]: the text before the first ["."] and, when there is one,
    the text after it. *)
Fixpoint split_dot (s : string) : string * option string :=
  match s with
  | EmptyString => (EmptyString, None)
  | String c s' =>
      if Ascii.eqb c "."%char then (EmptyString, Some s')
      else let '(a, b) := split_dot s' in (String c a, b)
  end.

(** A sign, then the rest. *)
Definition split_sign (s : string) : bool * string :=
  match s with
  | String c s' =>
      if Ascii.eqb c "-"%char then (true, s')
      else if Ascii.eqb c "+"%char then (false, s')
      else (false, s)
  | EmptyString => (false, s)
  end.

(** The plain numeric literals: [IntLit z] for an optional sign and digits,
    [DecLit neg m k] for an optional sign, digits, a point and [k >= 1]
    digits, standing for [m / 10^k] with the sign [neg].  Everything else
    that [int()] or [float()] may read (spaces, underscores, exponents,
    "inf", ...) is [NotPlain], and so is an integer literal longer than
    the limit [int()] puts on the conversion of a string. *)
Inductive literal :=
| IntLit (z : Z)
| DecLit (neg : bool) (m : Z) (k : nat)
| NotPlain.

Definition max_str_digits : nat := 4300.

Definition numeric_literal (s : string) : literal :=
  let '(neg, body) := split_sign s in
  match split_dot body with
  | (ip, None) =>
      match digit_run ip with
      | Some n =>
          if Nat.leb (String.length s) max_str_digits
          then IntLit (if neg then - n else n)
          else NotPlain
      | None => NotPlain
      end
  | (ip, Some fp) =>
      match digit_run ip, digit_run fp with
      | Some _, Some _ =>
          match digits 0 (ip ++ fp) with
          | Some m => DecLit neg m (String.length fp)
          | None => NotPlain
          end
      | _, _ => NotPlain
      end
  end.


(** [float(s)] on a decimal literal. *)
Definition float_of_decimal (neg : bool) (m : Z) (k : nat) : spec_float :=
  float_of_ratio neg m (10 ^ Z.of_nat k).

(** ** Construction of an entity *)

(** The major versions of pydantic.  They differ, for these declarations, on
    two points: the resolution of the union [int | float] (1.x tries the
    members from left to right and keeps the first that converts; 2.x keeps
    a member the value already is an instance of), and an attribute whose
    default is [None] without [None] in its declared type (1.x lets it take
    [None], 2.x does not). *)
Inductive pydantic := V1 | V2.

(** The conversions the library applies to a value that is not an instance
    of the declared type (a number written as a string, a time stamp in ISO
    format, ...).  Their extent depends on the version and the mode; they
    are left open, [None] meaning that the value is refused. *)
Record conversions := mk_conversions {
  to_str : pyval -> option string;
  to_bool : pyval -> option bool;
  to_int : pyval -> option Z;
  to_float : pyval -> option spec_float;
  to_datetime : pyval -> option datetime;
  to_dict : pyval -> option pydict
}.

Definition from_option {A} (o : option A) (k : A -> value) : result value :=
  match o with
  | Some a => Ok (k a)
  | None => Err [([], Invalid)]
  end.

(** The outcomes of the parts of a value are put together: the value is
    built when every part is, and otherwise every error is reported. *)
Definition merge {A} (r : result A) (rs : result (list A)) : result (list A) :=
  match r, rs with
  | Ok a, Ok l => Ok (a :: l)
  | Ok _, Err es => Err es
  | Err es, Ok _ => Err es
  | Err es, Err es' => Err (es ++ es')
  end.

Definition collect {A} (rs : list (result A)) : result (list A) :=
  fold_right merge (Ok []) rs.

Definition named {A} (n : string) (r : result A) : result (string * A) :=
  match r with
  | Ok a => Ok (n, a)
  | Err es => Err es
  end.

Definition result_map {A B} (k : A -> B) (r : result A) : result B :=
  match r with
  | Ok a => Ok (k a)
  | Err es => Err es
  end.

(** The items of a list, each checked under its index. *)
Fixpoint validate_items (check : pyval -> result value) (i : nat)
    (l : list pyval) : result (list value) :=
  match l with
  | [] => Ok []
  | v :: l' => merge (under (LIdx i) (check v)) (validate_items check (S i) l')
  end.

Section Validation.

Variable pyd : pydantic.
(** The member values of each enumeration of [.enum]. *)
Variable members : enum_class -> list string.
Variable conv : conversions.

(** An attribute that takes [None] although its declared type does not. *)
Definition allow_none (f : field) : bool :=
  match pyd, fdefault f with
  | V1, Some VNone => true
  | _, _ => false
  end.

(** One attribute of a class, read from the keyword arguments [kvs] under
    its wire key and checked by [check]. *)
Definition validate_attr (check : pyval -> result value) (f : field)
    (kvs : pydict) : result value :=
  match dict_get (wire f) kvs with
  | None =>
      match fdefault f with
      | Some d => Ok d
      | None => Err [([LKey (wire f)], Missing)]
      end
  | Some PNone =>
      if allow_none f then Ok VNone else under (LKey (wire f)) (check PNone)
  | Some v => under (LKey (wire f)) (check v)
  end.

(** What the union [int | float] reports of a value that neither member
    takes: one error for each member, which pydantic 1 locates at the
    attribute and pydantic 2 under the name of the member. *)
Definition union_refused : result value :=
  match pyd with
  | V1 => Err [([], Invalid); ([], Invalid)]
  | V2 => Err [([LKey "int"], Invalid); ([LKey "float"], Invalid)]
  end.

(** A value that is no number and no plain literal: the conversion to [int]
    is tried, then the conversion to [float]. *)
Definition convert_number (v : pyval) : result value :=
  match to_int conv v with
  | Some z => Ok (VInt z)
  | None =>
      match to_float conv v with
      | Some f => Ok (VFloat f)
      | None => union_refused
      end
  end.

(** [int | float].  Pydantic 1 tries [int], then [float], and [int] takes a
    finite [float] by truncation.  Pydantic 2 keeps a value that is an
    instance of a member, and converts a string to [int] when it writes an
    integer, with or without a fractional part of zeros, and to [float]
    otherwise. *)
Definition validate_int_or_float (v : pyval) : result value :=
  match v with
  | PNone =>
      match pyd with
      | V1 => Err [([], NoneNotAllowed)]
      | V2 => union_refused
      end
  | PInt z => Ok (VInt z)
  | PFloat f =>
      match pyd with
      | V2 => Ok (VFloat f)
      | V1 =>
          match float_trunc f with
          | Some z => Ok (VInt z)
          | None => Ok (VFloat f)
          end
      end
  | PStr s =>
      match numeric_literal s, pyd with
      | IntLit z, _ => Ok (VInt z)
      | DecLit neg m k, V1 => Ok (VFloat (float_of_decimal neg m k))
      | DecLit neg m k, V2 =>
          if m mod 10 ^ Z.of_nat k =? 0 then
            if Nat.leb (String.length s) max_str_digits
            then Ok (VInt (if neg then - (m / 10 ^ Z.of_nat k)
                           else m / 10 ^ Z.of_nat k))
            else convert_number v
          else Ok (VFloat (float_of_decimal neg m k))
      | NotPlain, _ => convert_number v
      end
  | _ => convert_number v
  end.

Definition validate_enum (e : enum_class) (v : pyval) : result value :=
  match v with
  | PStr s =>
      if existsb (String.eqb s) (members e) then Ok (VEnum e s)
      else Err [([], NotAMember)]
  | _ => Err [([], NotAMember)]
  end.

(** A value against a declared type. *)
Fixpoint validate (t : ftype) (v : pyval) {struct t} : result value :=
  match t, v with
  | TOptional t', PNone => Ok VNone
  | TOptional t', _ => validate t' v
  | TIntOrFloat, _ => validate_int_or_float v
  | _, PNone => Err [([], NoneNotAllowed)]
  | TStr, PStr s => Ok (VStr s)
  | TStr, _ => from_option (to_str conv v) VStr
  | TBool, PBool b => Ok (VBool b)
  | TBool, _ => from_option (to_bool conv v) VBool
  | TInt, PInt z => Ok (VInt z)
  | TInt, _ => from_option (to_int conv v) VInt
  | TDatetime, PDatetime d => Ok (VDatetime d)
  | TDatetime, _ => from_option (to_datetime conv v) VDatetime
  | TDict, PDict kvs => Ok (VDict kvs)
  | TDict, _ => from_option (to_dict conv v) VDict
  | TEnum e, _ => validate_enum e v
  | TList t', PList l => result_map VList (validate_items (validate t') 0 l)
  | TList t', _ => Err [([], Invalid)]
  | TModel fields, _ =>
      match (match v with PDict kvs => Some kvs | _ => to_dict conv v end) with
      | Some kvs =>
          result_map VModel
            (collect (map (fun f => named (fname f)
                                      (validate_attr (validate (fty f)) f kvs))
                          fields))
      | None => Err [([], Invalid)]
      end
  end.

(** A class [cls] of the module called on the keyword arguments [kvs]. *)
Definition construct (cls : model) (kvs : pydict) : result value :=
  validate (TModel cls) (PDict kvs).

(** The outcome of one attribute of a class on the payload [kvs]. *)
Definition attr_result (f : field) (kvs : pydict) : result value :=
  validate_attr (validate (fty f)) f kvs.

End Validation.

(** ** Serialisation by alias *)

(** A value as JSON has it: a [datetime] is written by [isoformat], inside
    lists and dicts too. *)
Fixpoint encode (isoformat : datetime -> string) (v : pyval) : pyval :=
  match v with
  | PDatetime d => PStr (isoformat d)
  | PList l => PList (map (encode isoformat) l)
  | PDict kvs =>
      PDict (map (fun kv => match kv with (k, w) => (k, encode isoformat w) end) kvs)
  | _ => v
  end.

(** The entity as a JSON object, by alias: every declared attribute is
    emitted under its wire key, in declaration order, nested entities
    likewise; an enumeration member is emitted as its value and a time as
    [isoformat] writes it. *)
Fixpoint dump (isoformat : datetime -> string) (t : ftype) (x : value)
    {struct t} : pyval :=
  match x with
  | VNone => PNone
  | VBool b => PBool b
  | VInt z => PInt z
  | VFloat f => PFloat f
  | VStr s => PStr s
  | VDatetime d => PStr (isoformat d)
  | VEnum _ s => PStr s
  | VDict kvs => encode isoformat (PDict kvs)
  | VList l =>
      match t with
      | TList t' | TOptional (TList t') => PList (map (dump isoformat t') l)
      | _ => PNone
      end
  | VModel attrs =>
      match t with
      | TModel fields | TOptional (TModel fields) =>
          PDict (map (fun f => (wire f,
                                match dict_get (fname f) attrs with
                                | Some x' => dump isoformat (fty f) x'
                                | None => PNone
                                end))
                     fields)
      | _ => PNone
      end
  end.

(** The serialised attributes of an entity of class [cls]. *)
Definition dump_attrs (isoformat : datetime -> string) (cls : model)
    (e : value) : pydict :=
  match dump isoformat (TModel cls) e with
  | PDict kvs => kvs
  | _ => []
  end.

(** [datetime.isoformat()]: "YYYY-MM-DDTHH:MM:SS", the microseconds when
    they are not zero, the offset when the value is aware. *)
Definition digit_char (d : Z) : ascii := ascii_of_N (Z.to_N (48 + d)).

Fixpoint padded (n : nat) (z : Z) : string :=
  match n with
  | O => EmptyString
  | S n' => padded n' (z / 10) ++ String (digit_char (z mod 10)) EmptyString
  end.

Definition isoformat (d : datetime) : string :=
  padded 4 (year d) ++ "-" ++ padded 2 (month d) ++ "-" ++ padded 2 (day d)
  ++ "T" ++ padded 2 (hour d) ++ ":" ++ padded 2 (minute d) ++ ":"
  ++ padded 2 (second d)
  ++ (if microsecond d =? 0 then "" else "." ++ padded 6 (microsecond d))
  ++ match tzoffset d with
     | None => ""
     | Some o =>
         (if o <? 0 then "-" else "+")
         ++ padded 2 (Z.abs o / 60) ++ ":" ++ padded 2 (Z.abs o mod 60)
     end.

(** ** Notions for the statements *)

(** A class without one of its attributes. *)
Definition without (name : string) (cls : model) : model :=
  filter (fun f => negb (String.eqb (fname f) name)) cls.

(** The enumeration an attribute type draws its values from. *)
Definition enum_of (t : ftype) : option enum_class :=
  match t with
  | TEnum e | TOptional (TEnum e) => Some e
  | _ => None
  end.

(** A payload misses a mandatory attribute at a path: in the payload itself,
    or in an entity nested in it, directly or as an item of a list. *)
Inductive missing_at : ftype -> pyval -> list loc_item -> Prop :=
| missing_here fields kvs f :
    In f fields -> fdefault f = None -> dict_get (wire f) kvs = None ->
    missing_at (TModel fields) (PDict kvs) [LKey (wire f)]
| missing_below fields kvs f v p :
    In f fields -> dict_get (wire f) kvs = Some v ->
    missing_at (fty f) v p ->
    missing_at (TModel fields) (PDict kvs) (LKey (wire f) :: p)
| missing_optional t v p :
    missing_at t v p -> missing_at (TOptional t) v p
| missing_item t l i v p :
    nth_error l i = Some v -> missing_at t v p ->
    missing_at (TList t) (PList l) (LIdx i :: p).

(** A payload value that is [None], a string, a boolean or an integer, and an
    instance of the declared type as it is. *)
Fixpoint plain (t : ftype) (v : pyval) : bool :=
  match t, v with
  | TOptional _, PNone => true
  | TOptional t', _ => plain t' v
  | TStr, PStr _ => true
  | TBool, PBool _ => true
  | TInt, PInt _ => true
  | TIntOrFloat, PInt _ => true
  | TEnum _, PStr _ => true
  | _, _ => false
  end.

Fixpoint nodupb (l : list string) : bool :=
  match l with
  | [] => true
  | x :: l' => negb (existsb (String.eqb x) l') && nodupb l'
  end.


(** ** Sample parameters *)

(** The member values the gateway documents for the five enumerations. *)
Definition gateway_members (e : enum_class) : list string :=
  match e with
  | PaymentStatus => ["pending"; "waiting_for_capture"; "succeeded"; "canceled"]
  | ReceiptRegistration => ["pending"; "succeeded"; "canceled"]
  | CancellationParty => ["yoo_money"; "payment_network"; "merchant"]
  | CancellationReason =>
      ["3d_secure_failed"; "call_issuer"; "canceled_by_merchant";
       "card_expired"; "country_forbidden"; "deal_expired";
       "expired_on_capture"; "expired_on_confirmation"; "fraud_suspected";
       "general_decline"; "identification_required"; "insufficient_funds";
       "internal_timeout"; "invalid_card_number"; "invalid_csc";
       "issuer_unavailable"; "payment_method_limit_exceeded";
       "payment_method_restricted"; "permission_revoked";
       "unsupported_mobile_operator"]
  | ConfirmationType =>
      ["embedded"; "external"; "mobile_application"; "qr"; "redirect"]
  end.

(** A time stamp as the gateway writes it, "2018-07-10T14:27:54.691Z". *)
Definition gateway_timestamp (s : string) : option datetime :=
  let num i n := digit_run (substring i n s) in
  let sep i c := String.eqb (substring i 1 s) c in
  if (Nat.eqb (String.length s) 24)
     && sep 4%nat "-" && sep 7%nat "-" && sep 10%nat "T" && sep 13%nat ":"
     && sep 16%nat ":" && sep 19%nat "." && sep 23%nat "Z"
  then
    match num 0%nat 4%nat, num 5%nat 2%nat, num 8%nat 2%nat,
          num 11%nat 2%nat, num 14%nat 2%nat, num 17%nat 2%nat,
          num 20%nat 3%nat with
    | Some y, Some mo, Some d, Some h, Some mi, Some sec, Some ms =>
        Some (mk_datetime y mo d h mi sec (1000 * ms) (Some 0))
    | _, _, _, _, _, _, _ => None
    end
  else None.

(** Conversions that read the gateway's time stamps and nothing else. *)
Definition timestamps_only : conversions :=
  {| to_str := fun _ => None;
     to_bool := fun _ => None;
     to_int := fun _ => None;
     to_float := fun _ => None;
     to_datetime := fun v =>
       match v with PStr s => gateway_timestamp s | _ => None end;
     to_dict := fun _ => None |}.

(** A payment as the gateway returns it once captured. *)
Definition sample_amount : pydict :=
  [ ("value", PStr "100.50"); ("currency", PStr "RUB") ].

Definition sample_payment : pydict :=
  [ ("id", PStr "22e12f66-000f-5000-8000-18db351245c7");
    ("status", PStr "succeeded");
    ("paid", PBool true);
    ("amount", PDict sample_amount);
    ("created_at", PStr "2018-07-18T10:51:18.139Z");
    ("description", PStr "Order 72");
    ("metadata", PDict []);
    ("recipient", PDict [ ("account_id", PStr "100500");
                          ("gateway_id", PStr "100700") ]);
    ("refundable", PBool true);
    ("test", PBool false) ].

(** ** Sample payloads *)

Definition sample_transfer : pydict :=
  [ ("account_id", PStr "123");
    ("amount", PDict sample_amount);
    ("status", PStr "succeeded") ].

(** The sample payment, without its creation time. *)
Definition payment_without_created_at : pydict :=
  filter (fun kv => negb (String.eqb (fst kv) "created_at")) sample_payment.

(** The sample payment with a status the gateway does not document. *)
Definition payment_with_unknown_status : pydict :=
  map (fun kv : string * pyval =>
         if String.eqb (fst kv) "status" then ("status", PStr "refunded") else kv)
      sample_payment.

Definition sample_card : pydict :=
  [ ("first6", PStr "411111"); ("last4", PStr "1111");
    ("expiry_year", PStr "2030"); ("expiry_month", PStr "12");
    ("card_type", PStr "Visa") ].

Definition amount_of (v : pyval) (currency : string) : pydict :=
  [ ("value", v); ("currency", PStr currency) ].

Definition stored_amount (x : value) (currency : string) : value :=
  VModel [ ("value", x); ("currency", VStr currency) ].

Definition settlement_entry : pyval :=
  PDict [ ("type", PStr "payout");
          ("amount", PDict [ ("value", PInt 100); ("currency", PStr "RUB") ]) ].

Definition deal_with_settlement : pydict :=
  [ ("id", PStr "dl-285e5ee7-0022-5000-8000-01516a44b147");
    ("settlements", PList [ settlement_entry ]) ].

(** The sample payment with one more item, as newer answers of the gateway
    have. *)
Definition invoice_details : pyval := PDict [ ("id", PStr "in-e44e8088") ].

Definition sample_payment_response : pydict :=
  (sample_payment ++ [ ("invoice_details", invoice_details) ])%list.

Definition sample_payment_entity : value :=
  VModel
    [ ("id", VStr "22e12f66-000f-5000-8000-18db351245c7");
      ("status", VEnum PaymentStatus "succeeded");
      ("amount", stored_amount (VFloat (float_of_decimal false 10050 2)) "RUB");
      ("income_amount", VNone); ("description", VStr "Order 72");
      ("recipient", VModel [ ("account_id", VStr "100500");
                             ("gateway_id", VStr "100700") ]);
      ("payment_method", VNone); ("captured_at", VNone);
      ("created_at", VDatetime (mk_datetime 2018 7 18 10 51 18 139000 (Some 0)));
      ("expires_at", VNone); ("confirmation", VNone);
      ("test", VBool false); ("refunded_amount", VNone);
      ("paid", VBool true); ("refundable", VBool true);
      ("receipt_registration", VNone); ("metadata", VDict []);
      ("cancellation_details", VNone); ("authorization_details", VNone);
      ("transfers", VNone); ("deal", VNone); ("merchant_customer_id", VNone) ].

(** ** Notions for the further properties *)

(** [d] without the key [k]. *)
Definition dict_remove {A : Type} (k : string) (d : list (string * A))
    : list (string * A) :=
  filter (fun kv => negb (String.eqb (fst kv) k)) d.

(** The attributes of a class that have no default. *)
Definition mandatory (cls : model) : model :=
  filter (fun f => match fdefault f with None => true | Some _ => false end) cls.

(** The entity made of the defaults of a class. *)
Definition defaults_of (cls : model) : value :=
  VModel (map (fun f => (fname f,
                         match fdefault f with Some d => d | None => VNone end))
              cls).

(** The type of the items of an attribute that holds a list. *)
Definition item_type (t : ftype) : option ftype :=
  match t with
  | TList t' | TOptional (TList t') => Some t'
  | _ => None
  end.

(** A payment canceled by the merchant, as its details say, with the status
    of a payment that succeeded. *)
Definition succeeded_with_cancellation : pydict :=
  (sample_payment
   ++ [ ("cancellation_details",
         PDict [ ("party", PStr "merchant");
                 ("reason", PStr "canceled_by_merchant") ]) ])%list.

(** A payment method of the type of the fast payment system, with a card. *)
Definition method_with_card : pydict :=
  [ ("type", PStr "sbp"); ("id", PStr "2a1b3c"); ("saved", PBool false);
    ("card", PDict sample_card) ].

(** *** Entities that can be read back *)

Definition is_optional (t : ftype) : bool :=
  match t with TOptional _ => true | _ => false end.

(** The declarations are well formed: in a class no two attributes have the
    same name or the same wire key, a default is [None] or, for a list, the
    empty list, and [None] is added to a type once only. *)
Definition default_fits (f : field) : bool :=
  match fdefault f with
  | None | Some VNone => true
  | Some (VList []) => match fty f with TList _ => true | _ => false end
  | Some _ => false
  end.

Fixpoint well_formed (t : ftype) : bool :=
  match t with
  | TOptional t' => negb (is_optional t') && well_formed t'
  | TList t' => well_formed t'
  | TModel fields =>
      nodupb (map fname fields) && nodupb (map wire fields)
      && (fix all (fs : list field) : bool :=
            match fs with
            | [] => true
            | f :: fs' => default_fits f && well_formed (fty f) && all fs'
            end) fields
  | _ => true
  end.

(** A value has the shape of a declared type. *)
Definition fits_shape (t : ftype) (x : value) : bool :=
  match t, x with
  | TOptional _, _ => true
  | TStr, VStr _ | TBool, VBool _ | TInt, VInt _
  | TIntOrFloat, VInt _ | TIntOrFloat, VFloat _
  | TDatetime, VDatetime _ | TDict, VDict _ | TEnum _, VEnum _ _
  | TList _, VList _ | TModel _, VModel _ => true
  | _, _ => false
  end.

Section Settled.

Variable pyd : pydantic.
Variable conv : conversions.
Variable isoformat : datetime -> string.

(** What of a validated value decides whether its serialisation is read
    back to it: a time must be read back from what [isoformat] writes; a
    free-form dict must hold no [datetime]; a [float] amount is read back
    unless the union converts it to [int] (pydantic 1, when the number is
    finite); and [None] held by an attribute must be a value the attribute
    takes from a payload. *)
Fixpoint settled (t : ftype) (x : value) {struct t} : Prop :=
  match t, x with
  | TOptional _, VNone => True
  | TOptional t', _ => settled t' x
  | TIntOrFloat, VFloat f => pyd = V2 \/ float_trunc f = None
  | TDatetime, VDatetime d => to_datetime conv (PStr (isoformat d)) = Some d
  | TDict, VDict kvs => encode isoformat (PDict kvs) = PDict kvs
  | TList t', VList l => Forall (settled t') l
  | TModel fields, VModel attrs =>
      (fix all (fs : list field) : Prop :=
         match fs with
         | [] => True
         | f :: fs' =>
             match dict_get (fname f) attrs with
             | Some x' =>
                 settled (fty f) x'
                 /\ (x' = VNone ->
                     is_optional (fty f) = true \/ allow_none pyd f = true)
             | None => False
             end
             /\ all fs'
         end) fields
  | _, _ => True
  end.

End Settled.

Section FtypeInduction.

Variable P : ftype -> Prop.
Hypothesis HStr : P TStr.
Hypothesis HBool : P TBool.
Hypothesis HInt : P TInt.
Hypothesis HIntOrFloat : P TIntOrFloat.
Hypothesis HDatetime : P TDatetime.
Hypothesis HDict : P TDict.
Hypothesis HEnum : forall e, P (TEnum e).
Hypothesis HOptional : forall t, P t -> P (TOptional t).
Hypothesis HList : forall t, P t -> P (TList t).
Hypothesis HModel :
  forall fields, Forall (fun f => P (fty f)) fields -> P (TModel fields).

(** Induction on a declared type, through the attributes of the classes it
    names. *)
Fixpoint ftype_induction (t : ftype) : P t :=
  match t with
  | TStr => HStr
  | TBool => HBool
  | TInt => HInt
  | TIntOrFloat => HIntOrFloat
  | TDatetime => HDatetime
  | TDict => HDict
  | TEnum e => HEnum e
  | TOptional t' => HOptional t' (ftype_induction t')
  | TList t' => HList t' (ftype_induction t')
  | TModel fields =>
      HModel fields
        ((fix go (fs : list field) : Forall (fun f => P (fty f)) fs :=
            match fs with
            | [] => Forall_nil _
            | f :: fs' => Forall_cons f (ftype_induction (fty f)) (go fs')
            end) fields)
  end.

End FtypeInduction.

(** *** The payload in the serialised entity *)

(** A value as [json.loads] produces it: no [datetime] object in it. *)
Fixpoint json_clean (v : pyval) : bool :=
  match v with
  | PDatetime _ => false
  | PList l => forallb json_clean l
  | PDict kvs => forallb (fun kv => json_clean (snd kv)) kvs
  | _ => true
  end.

(** [within v w]: the value [w] holds the value [v].  A list holds a list
    item by item; a dict holds a dict when it has each of its keys, with a
    value that holds the value of the key; any other value holds itself
    only. *)
Inductive within : pyval -> pyval -> Prop :=
| within_same v : within v v
| within_list l l' : Forall2 within l l' -> within (PList l) (PList l')
| within_dict kvs kws :
    (forall k x, dict_get k kvs = Some x ->
                 exists y, dict_get k kws = Some y /\ within x y) ->
    within (PDict kvs) (PDict kws).

(** A declared type with a class in it. *)
Fixpoint has_entity (t : ftype) : bool :=
  match t with
  | TOptional t' | TList t' => has_entity t'
  | TModel _ => true
  | _ => false
  end.

Section Direct.

Variable pyd : pydantic.

(** A payload value that validation takes as it is: an instance of the
    declared type ([None] where the type has it, a [float] amount where the
    union keeps it), a free-form dict as JSON has it, a list of such values,
    or the items of an entity, all under wire keys of its class, each with
    such a value. *)
Fixpoint direct (t : ftype) (v : pyval) {struct t} : bool :=
  match t, v with
  | TOptional _, PNone => true
  | TOptional t', _ => direct t' v
  | TStr, PStr _ | TBool, PBool _ | TInt, PInt _ | TEnum _, PStr _ => true
  | TIntOrFloat, PInt _ => true
  | TIntOrFloat, PFloat f =>
      match pyd, float_trunc f with
      | V2, _ | V1, None => true
      | V1, Some _ => false
      end
  | TDict, PDict _ => json_clean v
  | TList t', PList l => forallb (direct t') l
  | TModel fields, PDict kvs =>
      forallb (fun kv => existsb (fun f => String.eqb (wire f) (fst kv)) fields) kvs
      && forallb (fun f => match dict_get (wire f) kvs with
                           | None => true
                           | Some PNone => allow_none pyd f || direct (fty f) PNone
                           | Some x => direct (fty f) x
                           end) fields
  | _, _ => false
  end.

(** The same, for the value of an attribute. *)
Definition direct_attr (f : field) (v : pyval) : bool :=
  match v with
  | PNone => allow_none pyd f || direct (fty f) PNone
  | _ => direct (fty f) v
  end.

End Direct.

Section PyvalInduction.

Variable P : pyval -> Prop.
Hypothesis HNone : P PNone.
Hypothesis HBool : forall b, P (PBool b).
Hypothesis HInt : forall z, P (PInt z).
Hypothesis HFloat : forall f, P (PFloat f).
Hypothesis HStr : forall s, P (PStr s).
Hypothesis HDatetime : forall d, P (PDatetime d).
Hypothesis HList : forall l, Forall P l -> P (PList l).
Hypothesis HDict : forall kvs, Forall (fun kv => P (snd kv)) kvs -> P (PDict kvs).

(** Induction on a value, through the items of its lists and dicts. *)
Fixpoint pyval_induction (v : pyval) : P v :=
  match v with
  | PNone => HNone
  | PBool b => HBool b
  | PInt z => HInt z
  | PFloat f => HFloat f
  | PStr s => HStr s
  | PDatetime d => HDatetime d
  | PList l =>
      HList l ((fix go (l : list pyval) : Forall P l :=
                  match l with
                  | [] => Forall_nil _
                  | x :: l' => Forall_cons x (pyval_induction x) (go l')
                  end) l)
  | PDict kvs =>
      HDict kvs ((fix go (kvs : list (string * pyval))
                    : Forall (fun kv => P (snd kv)) kvs :=
                    match kvs with
                    | [] => Forall_nil _
                    | kv :: kvs' =>
                        Forall_cons kv (pyval_induction (snd kv)) (go kvs')
                    end) kvs)
  end.

End PyvalInduction.

(** What pydantic writes for a [datetime] in JSON: 1.x calls [isoformat];
    2.x writes the same, but for the offset zero, which it writes "Z". *)
Definition json_datetime (pyd : pydantic) (d : datetime) : string :=
  match pyd, tzoffset d with
  | V2, Some 0 =>
      isoformat (mk_datetime (year d) (month d) (day d) (hour d) (minute d)
                   (second d) (microsecond d) None) ++ "Z"
  | _, _ => isoformat d
  end.

(** A time stamp as the gateway writes it, from a [datetime] in UTC. *)
Definition gateway_isoformat (d : datetime) : string :=
  padded 4 (year d) ++ "-" ++ padded 2 (month d) ++ "-" ++ padded 2 (day d)
  ++ "T" ++ padded 2 (hour d) ++ ":" ++ padded 2 (minute d) ++ ":"
  ++ padded 2 (second d) ++ "." ++ padded 3 (microsecond d / 1000) ++ "Z".

(** [In f cls] for a class written out: one case per attribute. *)
Ltac each_attribute H :=
  repeat (destruct H as [<- | H]); [ .. | destruct H ].

(** * Properties *)

(** ** Outcomes *)

Lemma is_ok_merge {A} (r : result A) (rs : result (list A)) :
  is_ok (merge r rs) = is_ok r && is_ok rs.
Proof. destruct r, rs; reflexivity. Qed.

Lemma errors_of_merge {A} (r : result A) (rs : result (list A)) :
  errors_of (merge r rs) = (errors_of r ++ errors_of rs)%list.
Proof. destruct r, rs; simpl; auto using app_nil_r. Qed.

Lemma is_ok_collect {A} (rs : list (result A)) :
  is_ok (collect rs) = forallb is_ok rs.
Proof.
  induction rs as [|r rs IH]; simpl; [reflexivity|].
  now rewrite is_ok_merge, IH.
Qed.

Lemma errors_of_collect {A} (rs : list (result A)) :
  errors_of (collect rs) = flat_map errors_of rs.
Proof.
  induction rs as [|r rs IH]; simpl; [reflexivity|].
  now rewrite errors_of_merge, IH.
Qed.

Lemma is_ok_true {A} (r : result A) : is_ok r = true -> exists a, r = Ok a.
Proof. destruct r; simpl; [eauto | discriminate]. Qed.

Lemma not_ok_of_error {A} (r : result A) e :
  In e (errors_of r) -> exists es, r = Err es /\ In e es.
Proof. destruct r; simpl; [tauto | eauto]. Qed.

Lemma collect_ok_inv {A} (rs : list (result A)) l :
  collect rs = Ok l -> rs = map Ok l.
Proof.
  revert l; induction rs as [|r rs IH]; simpl; intros l H.
  - now inversion H.
  - destruct r as [a|es], (collect rs) as [l'|es'] eqn:E; simpl in H;
      try discriminate.
    inversion H; subst; simpl. now rewrite (IH l' eq_refl).
Qed.

Lemma is_ok_named {A} n (r : result A) : is_ok (named n r) = is_ok r.
Proof. now destruct r. Qed.

Lemma errors_of_named {A} n (r : result A) :
  errors_of (named n r) = errors_of r.
Proof. now destruct r. Qed.

Lemma is_ok_result_map {A B} (k : A -> B) r : is_ok (result_map k r) = is_ok r.
Proof. now destruct r. Qed.

Lemma errors_of_result_map {A B} (k : A -> B) r :
  errors_of (result_map k r) = errors_of r.
Proof. now destruct r. Qed.

Lemma errors_of_under {A} i (r : result A) :
  errors_of (under i r) = map (fun e : error => (i :: fst e, snd e)) (errors_of r).
Proof. now destruct r. Qed.

Lemma nodupb_cons_notin x l y :
  nodupb (x :: l) = true -> In y l -> String.eqb y x = false.
Proof.
  simpl; intros H Hy.
  apply andb_prop in H as [H _]. apply negb_true_iff in H.
  destruct (String.eqb y x) eqn:E; [|reflexivity].
  apply String.eqb_eq in E; subst y.
  assert (existsb (String.eqb x) l = true) as C; [|congruence].
  apply existsb_exists. exists x. split; [assumption | apply String.eqb_refl].
Qed.

Lemma existsb_eqb_In s l : existsb (String.eqb s) l = true <-> In s l.
Proof.
  rewrite existsb_exists; split.
  - intros [x [Hx E]]. apply String.eqb_eq in E. now subst.
  - intros H. exists s. split; [assumption | apply String.eqb_refl].
Qed.

(** ** Construction, attribute by attribute *)

Section Construction.

Variable pyd : pydantic.
Variable members : enum_class -> list string.
Variable conv : conversions.

Local Abbreviation validate' := (validate pyd members conv).
Local Abbreviation construct' := (construct pyd members conv).
Local Abbreviation attr_result' := (attr_result pyd members conv).

Lemma construct_eq cls kvs :
  construct' cls kvs =
  result_map VModel
    (collect (map (fun f => named (fname f) (attr_result' f kvs)) cls)).
Proof. reflexivity. Qed.

(** An entity is built exactly when every attribute is accepted. *)
Lemma is_ok_construct cls kvs :
  is_ok (construct' cls kvs) = forallb (fun f => is_ok (attr_result' f kvs)) cls.
Proof.
  rewrite construct_eq, is_ok_result_map, is_ok_collect.
  induction cls as [|f cls IH]; simpl; [reflexivity|].
  now rewrite is_ok_named, IH.
Qed.

(** The errors of a construction are those of its attributes, in order. *)
Lemma errors_of_construct cls kvs :
  errors_of (construct' cls kvs) =
  flat_map (fun f => errors_of (attr_result' f kvs)) cls.
Proof.
  rewrite construct_eq, errors_of_result_map, errors_of_collect.
  induction cls as [|f cls IH]; simpl; [reflexivity|].
  now rewrite errors_of_named, IH.
Qed.

Lemma attrs_lookup (R : field -> result value) cls xs f :
  map (fun f => named (fname f) (R f)) cls = map Ok xs ->
  nodupb (map fname cls) = true ->
  In f cls ->
  exists x, R f = Ok x /\ dict_get (fname f) xs = Some x.
Proof.
  revert xs; induction cls as [|g cls IH]; intros xs E N Hin; [easy|].
  destruct xs as [|[n x] xs]; [discriminate|].
  simpl in E. injection E as E1 E2.
  destruct (R g) as [y|] eqn:Rg; simpl in E1; [|discriminate].
  injection E1 as <- <-.
  destruct Hin as [->|Hin].
  - exists y. split; [assumption|]. simpl. now rewrite String.eqb_refl.
  - simpl. rewrite (nodupb_cons_notin _ _ _ N (in_map fname _ _ Hin)).
    apply IH; trivial.
    simpl in N. now apply andb_prop in N.
Qed.

(** On success every attribute of the class has been accepted, and the
    entity holds its value under the canonical name. *)
Lemma construct_ok_attr cls kvs e f :
  nodupb (map fname cls) = true ->
  construct' cls kvs = Ok e ->
  In f cls ->
  exists x, attr_result' f kvs = Ok x /\ attr (fname f) e = Some x.
Proof.
  intros N H Hin. rewrite construct_eq in H.
  destruct (collect _) as [xs|] eqn:C; simpl in H; [|discriminate].
  injection H as <-. apply collect_ok_inv in C.
  exact (attrs_lookup _ _ _ _ C N Hin).
Qed.

Lemma construct_ok_names cls kvs e :
  construct' cls kvs = Ok e ->
  exists xs, e = VModel xs /\ map fst xs = map fname cls.
Proof.
  intros H. rewrite construct_eq in H.
  destruct (collect _) as [xs|] eqn:C; simpl in H; [|discriminate].
  injection H as <-. exists xs. split; [reflexivity|].
  apply collect_ok_inv in C. revert xs C.
  induction cls as [|g cls IH]; intros [|[n x] xs] C; try discriminate;
    [reflexivity|].
  simpl in C. injection C as C1 C2.
  destruct (attr_result' g kvs); simpl in C1; [|discriminate].
  injection C1 as <- <-. simpl. now rewrite (IH _ C2).
Qed.

(** *** One attribute *)

Lemma attr_absent_default f kvs d :
  dict_get (wire f) kvs = None -> fdefault f = Some d ->
  attr_result' f kvs = Ok d.
Proof.
  intros H D. unfold attr_result, validate_attr.
  now rewrite H, D.
Qed.

Lemma attr_absent_mandatory f kvs :
  dict_get (wire f) kvs = None -> fdefault f = None ->
  attr_result' f kvs = Err [([LKey (wire f)], Missing)].
Proof.
  intros H D. unfold attr_result, validate_attr.
  now rewrite H, D.
Qed.

Lemma attr_present f kvs v :
  dict_get (wire f) kvs = Some v -> v <> PNone ->
  attr_result' f kvs = under (LKey (wire f)) (validate' (fty f) v).
Proof.
  intros H D. unfold attr_result, validate_attr.
  rewrite H. destruct v; [congruence | reflexivity ..].
Qed.

Lemma validate_None t :
  validate' t PNone = Ok VNone
  \/ exists es, validate' t PNone = Err es /\ forall p, ~ In (p, Missing) es.
Proof.
  assert (forall es : list error,
            Forall (fun e => snd e <> Missing) es ->
            forall p, ~ In (p, Missing) es) as L.
  { intros es F p H. rewrite Forall_forall in F. now apply (F _ H). }
  destruct t; simpl; auto; right;
    try (eexists; split; [reflexivity | apply L; repeat constructor; discriminate]).
  unfold validate_int_or_float, union_refused.
  destruct pyd; eexists; (split; [reflexivity|]);
    apply L; repeat constructor; discriminate.
Qed.

(** The errors of an attribute are located under its wire key. *)
Lemma attr_errors_loc f kvs p k :
  In (p, k) (errors_of (attr_result' f kvs)) -> exists q, p = LKey (wire f) :: q.
Proof.
  unfold attr_result, validate_attr.
  destruct (dict_get (wire f) kvs) as [v|].
  - assert (In (p, k) (errors_of (under (LKey (wire f))
              (validate' (fty f) v))) ->
            exists q, p = LKey (wire f) :: q) as U.
    { rewrite errors_of_under, in_map_iff. intros [[q k'] [E _]].
      injection E as <- _. eauto. }
    destruct v; try exact U.
    destruct (allow_none pyd f); [simpl; tauto | exact U].
  - destruct (fdefault f); simpl; [tauto|].
    intros [E|[]]. injection E as <- _. eauto.
Qed.

(** *** Missing attributes *)

Lemma validate_items_error check l : forall k i v es p kd,
  nth_error l i = Some v -> check v = Err es -> In (p, kd) es ->
  In (LIdx (k + i) :: p, kd) (errors_of (validate_items check k l)).
Proof.
  induction l as [|w l IH]; intros k i v es p kd Hn Hc Hin.
  - now destruct i.
  - simpl. rewrite errors_of_merge, in_app_iff. destruct i as [|i].
    + left. injection Hn as ->. rewrite Hc, Nat.add_0_r. simpl.
      apply in_map_iff. exists (p, kd). auto.
    + right. replace (k + S i)%nat with (S k + i)%nat by lia. eauto.
Qed.

(** A mandatory attribute that is absent, at any depth, is reported as
    missing at its path, and nothing is built. *)
Lemma missing_reported t v p :
  missing_at t v p ->
  exists es, validate' t v = Err es /\ In (p, Missing) es.
Proof.
  induction 1 as [fields kvs f Hin D G | fields kvs f v p Hin G _ IH
                 | t v p _ IH | t l i v p Hn _ IH].
  - apply not_ok_of_error.
    change (In ([LKey (wire f)], Missing) (errors_of (construct' fields kvs))).
    rewrite errors_of_construct, in_flat_map. exists f. split; [assumption|].
    rewrite attr_absent_mandatory by assumption. now left.
  - destruct IH as [es [E Hp]]. apply not_ok_of_error.
    change (In (LKey (wire f) :: p, Missing) (errors_of (construct' fields kvs))).
    rewrite errors_of_construct, in_flat_map. exists f. split; [assumption|].
    rewrite (attr_present _ _ _ G).
    + rewrite E. simpl. apply in_map_iff. exists (p, Missing). auto.
    + intros ->. destruct (validate_None (fty f)) as [N|[es' [N M]]];
        rewrite N in E; [discriminate|].
      injection E as <-. destruct (M _ Hp).
  - destruct IH as [es [E Hp]]. exists es. split; [|assumption].
    destruct v; try exact E.
    destruct (validate_None t) as [N|[es' [N M]]]; rewrite N in E;
      [discriminate|].
    injection E as <-. destruct (M _ Hp).
  - destruct IH as [es [E Hp]]. apply not_ok_of_error.
    change (In (LIdx i :: p, Missing)
              (errors_of (result_map VList (validate_items (validate' t) 0 l)))).
    rewrite errors_of_result_map.
    exact (validate_items_error _ _ 0%nat _ _ _ _ _ Hn E Hp).
Qed.

(** *** Attributes that cannot fail *)

(** An attribute that is accepted takes no part in the outcome: the
    construction succeeds exactly when the class without it does. *)
Lemma is_ok_without cls kvs name :
  (forall f, In f cls -> fname f = name -> is_ok (attr_result' f kvs) = true) ->
  is_ok (construct' cls kvs) = is_ok (construct' (without name cls) kvs).
Proof.
  rewrite !is_ok_construct.
  induction cls as [|g cls IH]; intros H; simpl; [reflexivity|].
  destruct (String.eqb (fname g) name) eqn:E; simpl.
  - apply String.eqb_eq in E. rewrite (H g) by (simpl; auto).
    simpl. apply IH. intros f Hf. apply H. now right.
  - f_equal. apply IH. intros f Hf. apply H. now right.
Qed.

Lemma in_without f name cls :
  In f (without name cls) -> In f cls /\ fname f <> name.
Proof.
  unfold without. rewrite filter_In, negb_true_iff. intros [H E].
  split; [assumption|]. intros C. apply String.eqb_neq in E. contradiction.
Qed.

(** No error is located under the key of an attribute that is accepted. *)
Lemma no_error_under_accepted cls kvs f p k :
  nodupb (map wire cls) = true ->
  In f cls -> is_ok (attr_result' f kvs) = true ->
  ~ In (LKey (wire f) :: p, k) (errors_of (construct' cls kvs)).
Proof.
  intros N Hin Hok Herr.
  rewrite errors_of_construct, in_flat_map in Herr.
  destruct Herr as [g [Hg He]].
  destruct (attr_errors_loc _ _ _ _ He) as [q Eq]. injection Eq as Ew _.
  assert (g = f) as ->.
  { clear - N Hin Hg Ew. induction cls as [|h cls IH]; [easy|].
    destruct Hin as [->|Hin], Hg as [->|Hg]; trivial.
    - pose proof (nodupb_cons_notin _ _ _ N (in_map wire _ _ Hg)) as C.
      rewrite <- Ew, String.eqb_refl in C. discriminate.
    - pose proof (nodupb_cons_notin _ _ _ N (in_map wire _ _ Hin)) as C.
      rewrite Ew, String.eqb_refl in C. discriminate.
    - apply IH; trivial. simpl in N. now apply andb_prop in N. }
  apply is_ok_true in Hok as [x Hx]. rewrite Hx in He. exact He.
Qed.

(** *** Enumerations *)

Lemma validate_enum_ok e v x :
  validate' (TEnum e) v = Ok x ->
  exists s, v = PStr s /\ In s (members e) /\ x = VEnum e s.
Proof.
  destruct v; simpl; try discriminate.
  destruct (existsb _ _) eqn:E; [|discriminate].
  intros H. injection H as <-. apply existsb_eqb_In in E. eauto.
Qed.

Lemma validate_enum_member e s :
  In s (members e) -> validate' (TEnum e) (PStr s) = Ok (VEnum e s).
Proof.
  intros H. apply existsb_eqb_In in H. simpl. unfold validate_enum.
  now rewrite H.
Qed.

Lemma validate_enum_other t e v :
  enum_of t = Some e -> v <> PNone ->
  (forall s, v = PStr s -> ~ In s (members e)) ->
  validate' t v = Err [([], NotAMember)].
Proof.
  intros Ht Hv Hs.
  assert (validate' (TEnum e) v = Err [([], NotAMember)]) as E.
  { destruct v; try reflexivity; [congruence|].
    simpl. unfold validate_enum.
    destruct (existsb _ _) eqn:X; [|reflexivity].
    apply existsb_eqb_In in X. now destruct (Hs s eq_refl). }
  destruct t; try discriminate.
  - now injection Ht as ->.
  - destruct t; try discriminate. injection Ht as ->.
    destruct v; try exact E. congruence.
Qed.

End Construction.

(** The attribute names of every class are distinct, and so are its wire
    keys. *)
Lemma models_distinct name cls :
  In (name, cls) models ->
  nodupb (map fname cls) = true /\ nodupb (map wire cls) = true.
Proof.
  assert (forallb (fun m => nodupb (map fname (snd m)) && nodupb (map wire (snd m)))
            models = true) as H by reflexivity.
  rewrite forallb_forall in H. intros Hin.
  apply andb_prop. exact (H _ Hin).
Qed.

(** ** Defaults *)

(** C1. A Transfer payload without the key [platform_fee_amount] is never
    refused for it: the construction succeeds exactly when the payload is
    valid for the other attributes, no error is located under that key, and
    the entity built has [fee_amount] equal to [None]. *)
Theorem Transfer_without_platform_fee_amount pyd members conv kvs :
  dict_get "platform_fee_amount" kvs = None ->
  is_ok (construct pyd members conv Transfer kvs)
  = is_ok (construct pyd members conv (without "fee_amount" Transfer) kvs)
  /\ (forall p k,
        ~ In (LKey "platform_fee_amount" :: p, k)
             (errors_of (construct pyd members conv Transfer kvs)))
  /\ (forall e,
        construct pyd members conv Transfer kvs = Ok e ->
        attr "fee_amount" e = Some VNone).
Proof.
  intros H.
  set (fee := Field "fee_amount" (TModel PaymentAmount) (Some VNone)
                "platform_fee_amount").
  assert (attr_result pyd members conv fee kvs = Ok VNone) as A
    by now apply attr_absent_default.
  assert (In fee Transfer) as Hin by (simpl; tauto).
  split; [|split].
  - apply is_ok_without. intros f Hf Hn.
    each_attribute Hf; try discriminate Hn. fold fee. now rewrite A.
  - intros p k. apply (no_error_under_accepted _ _ _ Transfer kvs fee);
      [reflexivity | assumption | now rewrite A].
  - intros e He.
    destruct (construct_ok_attr _ _ _ Transfer kvs e fee eq_refl He Hin)
      as [x [Hx Ha]].
    rewrite A in Hx. injection Hx as <-. exact Ha.
Qed.

Lemma Transfer_without_platform_fee_amount_witness :
  dict_get "platform_fee_amount" sample_transfer = None
  /\ construct V2 gateway_members timestamps_only Transfer sample_transfer
     = Ok (VModel
             [ ("account_id", VStr "123");
               ("amount", VModel [ ("value", VFloat (float_of_decimal false 10050 2));
                                   ("currency", VStr "RUB") ]);
               ("status", VEnum PaymentStatus "succeeded");
               ("fee_amount", VNone);
               ("description", VNone);
               ("metadata", VNone) ])
  /\ forall e,
       construct V2 gateway_members timestamps_only Transfer sample_transfer = Ok e ->
       attr "fee_amount" e = Some VNone.
Proof.
  split; [reflexivity | split; [reflexivity |]].
  apply (Transfer_without_platform_fee_amount V2 gateway_members timestamps_only
           sample_transfer).
  reflexivity.
Defined.

(** ** Mandatory attributes *)

(** C2. A payload that misses a mandatory attribute, in the payload itself or
    in an entity nested in it, is refused, and the errors name the path of
    the missing attribute; so it is for [created_at] of Payment and for
    [account_id] of Recipient.  The outcome is an error, never an entity:
    an entity that is built has every attribute of its class. *)
Theorem missing_mandatory_attribute_fails pyd members conv :
  (forall cls kvs p,
      missing_at (TModel cls) (PDict kvs) p ->
      exists es, construct pyd members conv cls kvs = Err es
                 /\ In (p, Missing) es)
  /\ (forall kvs,
        dict_get "created_at" kvs = None ->
        exists es, construct pyd members conv Payment kvs = Err es
                   /\ In ([LKey "created_at"], Missing) es)
  /\ (forall kvs,
        dict_get "account_id" kvs = None ->
        exists es, construct pyd members conv Recipient kvs = Err es
                   /\ In ([LKey "account_id"], Missing) es)
  /\ (forall cls kvs e,
        construct pyd members conv cls kvs = Ok e ->
        exists attrs, e = VModel attrs /\ map fst attrs = map fname cls).
Proof.
  split; [|split; [|split]]; [ | | | apply construct_ok_names ].
  - intros cls kvs p H. exact (missing_reported _ _ _ _ _ _ H).
  - intros kvs H.
    apply (missing_reported pyd members conv (TModel Payment) (PDict kvs)).
    apply (missing_here Payment kvs (required "created_at" TDatetime));
      [simpl; tauto | reflexivity | exact H].
  - intros kvs H.
    apply (missing_reported pyd members conv (TModel Recipient) (PDict kvs)).
    apply (missing_here Recipient kvs (required "account_id" TStr));
      [simpl; tauto | reflexivity | exact H].
Qed.

Lemma missing_mandatory_attribute_fails_witness :
  dict_get "created_at" payment_without_created_at = None
  /\ exists es,
       construct V2 gateway_members timestamps_only Payment
         payment_without_created_at = Err es
       /\ In ([LKey "created_at"], Missing) es.
Proof.
  split; [reflexivity|].
  apply (proj1 (proj2 (missing_mandatory_attribute_fails
                         V2 gateway_members timestamps_only))).
  reflexivity.
Defined.

(** A Payment whose recipient has no [account_id]: the path goes through
    [recipient]. *)
Lemma Payment_recipient_without_account_id pyd members conv kvs r :
  dict_get "recipient" kvs = Some (PDict r) ->
  dict_get "account_id" r = None ->
  exists es, construct pyd members conv Payment kvs = Err es
             /\ In ([LKey "recipient"; LKey "account_id"], Missing) es.
Proof.
  intros Hr Ha.
  apply (missing_reported pyd members conv (TModel Payment) (PDict kvs)).
  apply (missing_below Payment kvs (required "recipient" (TModel Recipient))
           (PDict r) [LKey "account_id"]); [simpl; tauto | exact Hr |].
  apply (missing_here Recipient r (required "account_id" TStr));
    [simpl; tauto | reflexivity | exact Ha].
Qed.

Example Payment_errors_are_collected :
  construct V1 gateway_members timestamps_only Payment
    [ ("status", PStr "done"); ("recipient", PDict []) ]
  = Err [ ([LKey "id"], Missing); ([LKey "status"], NotAMember);
          ([LKey "amount"], Missing);
          ([LKey "recipient"; LKey "account_id"], Missing);
          ([LKey "recipient"; LKey "gateway_id"], Missing);
          ([LKey "created_at"], Missing); ([LKey "test"], Missing);
          ([LKey "paid"], Missing); ([LKey "refundable"], Missing) ].
Proof. reflexivity. Qed.

(** C3. An attribute with a default never fails on absence.  A PaymentsList
    built from a payload without [items] has [list] equal to the empty
    list, and with [cursor] absent as well it is built with [cursor] equal
    to [None].  A Payment payload with [status] "succeeded" and no
    [cancellation_details] key is accepted when its other attributes are,
    and the entity has [cancellation_details] equal to [None]. *)
Theorem defaults_resolve_on_absence pyd members conv :
  (forall kvs,
      dict_get "items" kvs = None ->
      (forall e, construct pyd members conv PaymentsList kvs = Ok e ->
                 attr "list" e = Some (VList []))
      /\ (forall p k,
            ~ In (LKey "items" :: p, k)
                 (errors_of (construct pyd members conv PaymentsList kvs)))
      /\ (dict_get "cursor" kvs = None ->
          construct pyd members conv PaymentsList kvs
          = Ok (VModel [ ("list", VList []); ("cursor", VNone) ])))
  /\ (forall kvs,
        In "succeeded" (members PaymentStatus) ->
        dict_get "status" kvs = Some (PStr "succeeded") ->
        dict_get "cancellation_details" kvs = None ->
        is_ok (construct pyd members conv Payment kvs)
        = is_ok (construct pyd members conv
                   (without "status" (without "cancellation_details" Payment)) kvs)
        /\ forall e,
             construct pyd members conv Payment kvs = Ok e ->
             attr "cancellation_details" e = Some VNone
             /\ attr "status" e = Some (VEnum PaymentStatus "succeeded")).
Proof.
  split.
  - intros kvs H.
    set (items := Field "list" (TList (TModel Payment)) (Some (VList [])) "items").
    assert (attr_result pyd members conv items kvs = Ok (VList [])) as A
      by now apply attr_absent_default.
    assert (In items PaymentsList) as Hin by (simpl; tauto).
    split; [|split].
    + intros e He.
      destruct (construct_ok_attr _ _ _ PaymentsList kvs e items eq_refl He Hin)
        as [x [Hx Ha]].
      rewrite A in Hx. injection Hx as <-. exact Ha.
    + intros p k.
      apply (no_error_under_accepted _ _ _ PaymentsList kvs items);
        [reflexivity | assumption | now rewrite A].
    + intros Hc. rewrite construct_eq. unfold PaymentsList. cbn [map].
      fold items. rewrite A.
      rewrite (attr_absent_default _ _ _ (optional "cursor" (TOptional TStr))
                 kvs VNone Hc eq_refl).
      reflexivity.
  - intros kvs Hm Hs Hc.
    set (st := required "status" (TEnum PaymentStatus)).
    set (cd := optional "cancellation_details"
                 (TOptional (TModel CancellationDetails))).
    assert (attr_result pyd members conv cd kvs = Ok VNone) as Acd
      by now apply attr_absent_default.
    assert (attr_result pyd members conv st kvs
            = Ok (VEnum PaymentStatus "succeeded")) as Ast.
    { rewrite (attr_present _ _ _ st kvs _ Hs) by discriminate.
      cbn [fty st required]. now rewrite validate_enum_member. }
    split.
    + rewrite (is_ok_without _ _ _ Payment kvs "cancellation_details").
      * apply is_ok_without. intros f Hf Hn.
        apply in_without in Hf as [Hf _].
        each_attribute Hf; try discriminate Hn. fold st. now rewrite Ast.
      * intros f Hf Hn.
        each_attribute Hf; try discriminate Hn. fold cd. now rewrite Acd.
    + intros e He. split.
      * destruct (construct_ok_attr _ _ _ Payment kvs e cd eq_refl He)
          as [x [Hx Ha]]; [simpl; tauto|].
        rewrite Acd in Hx. injection Hx as <-. exact Ha.
      * destruct (construct_ok_attr _ _ _ Payment kvs e st eq_refl He)
          as [x [Hx Ha]]; [simpl; tauto|].
        rewrite Ast in Hx. injection Hx as <-. exact Ha.
Qed.

Lemma defaults_resolve_on_absence_witness :
  (dict_get "items" ([] : pydict) = None
   /\ dict_get "cursor" ([] : pydict) = None
   /\ construct V2 gateway_members timestamps_only PaymentsList []
      = Ok (VModel [ ("list", VList []); ("cursor", VNone) ]))
  /\ (In "succeeded" (gateway_members PaymentStatus)
      /\ dict_get "status" sample_payment = Some (PStr "succeeded")
      /\ dict_get "cancellation_details" sample_payment = None
      /\ is_ok (construct V2 gateway_members timestamps_only Payment sample_payment)
         = true
      /\ forall e,
           construct V2 gateway_members timestamps_only Payment sample_payment
           = Ok e ->
           attr "cancellation_details" e = Some VNone
           /\ attr "status" e = Some (VEnum PaymentStatus "succeeded")).
Proof.
  pose proof (defaults_resolve_on_absence V2 gateway_members timestamps_only)
    as [L P].
  split.
  - split; [reflexivity | split; [reflexivity|]].
    exact (proj2 (proj2 (L [] eq_refl)) eq_refl).
  - assert (In "succeeded" (gateway_members PaymentStatus)) as M
      by (simpl; tauto).
    split; [exact M | split; [reflexivity | split; [reflexivity|]]].
    split; [reflexivity|].
    exact (proj2 (P sample_payment M eq_refl eq_refl)).
Defined.

(** Every attribute with a default, in every class: absent from the payload,
    it raises nothing and takes its default. *)
Lemma default_on_absence pyd members conv name cls f d kvs :
  In (name, cls) models -> In f cls ->
  fdefault f = Some d -> dict_get (wire f) kvs = None ->
  is_ok (construct pyd members conv cls kvs)
  = is_ok (construct pyd members conv (without (fname f) cls) kvs)
  /\ (forall p k,
        ~ In (LKey (wire f) :: p, k)
             (errors_of (construct pyd members conv cls kvs)))
  /\ (forall e, construct pyd members conv cls kvs = Ok e ->
                attr (fname f) e = Some d).
Proof.
  intros Hm Hin D G. destruct (models_distinct _ _ Hm) as [Nn Nw].
  assert (attr_result pyd members conv f kvs = Ok d) as A
    by now apply attr_absent_default.
  split; [|split].
  - apply is_ok_without. intros g Hg Hn.
    assert (g = f) as ->; [|now rewrite A].
    clear - Nn Hin Hg Hn. induction cls as [|h cls IH]; [easy|].
    destruct Hin as [->|Hin], Hg as [->|Hg]; trivial.
    + pose proof (nodupb_cons_notin _ _ _ Nn (in_map fname _ _ Hg)) as C.
      rewrite Hn, String.eqb_refl in C. discriminate.
    + pose proof (nodupb_cons_notin _ _ _ Nn (in_map fname _ _ Hin)) as C.
      rewrite <- Hn, String.eqb_refl in C. discriminate.
    + apply IH; trivial. simpl in Nn. now apply andb_prop in Nn.
  - intros p k. apply no_error_under_accepted; trivial. now rewrite A.
  - intros e He.
    destruct (construct_ok_attr _ _ _ cls kvs e f Nn He Hin) as [x [Hx Ha]].
    rewrite A in Hx. injection Hx as <-. exact Ha.
Qed.

(** ** Enumerations *)

(** C4. An enumerated attribute accepts the member values of its enumeration
    and nothing else: a payload whose value is not a member is refused, with
    an error at the attribute; so it is for [status] of Payment.  No value
    outside the member set is ever accepted in place of a member. *)
Theorem unknown_enum_value_fails pyd members conv :
  (forall e v x,
      validate pyd members conv (TEnum e) v = Ok x ->
      exists s, v = PStr s /\ In s (members e) /\ x = VEnum e s)
  /\ (forall cls f e kvs v,
        In f cls -> enum_of (fty f) = Some e ->
        dict_get (wire f) kvs = Some v -> v <> PNone ->
        (forall s, v = PStr s -> ~ In s (members e)) ->
        exists es, construct pyd members conv cls kvs = Err es
                   /\ In ([LKey (wire f)], NotAMember) es)
  /\ (forall kvs s,
        dict_get "status" kvs = Some (PStr s) ->
        ~ In s (members PaymentStatus) ->
        exists es, construct pyd members conv Payment kvs = Err es
                   /\ In ([LKey "status"], NotAMember) es).
Proof.
  assert (forall cls f e kvs v,
        In f cls -> enum_of (fty f) = Some e ->
        dict_get (wire f) kvs = Some v -> v <> PNone ->
        (forall s, v = PStr s -> ~ In s (members e)) ->
        exists es, construct pyd members conv cls kvs = Err es
                   /\ In ([LKey (wire f)], NotAMember) es) as G.
  { intros cls f e kvs v Hin He Hv Hn Hs. apply not_ok_of_error.
    rewrite errors_of_construct, in_flat_map. exists f. split; [assumption|].
    rewrite (attr_present _ _ _ f kvs v Hv Hn).
    rewrite (validate_enum_other _ _ _ _ e v He Hn Hs). now left. }
  split; [|split].
  - intros e v x. apply validate_enum_ok.
  - exact G.
  - intros kvs s Hv Hs.
    apply (G Payment (required "status" (TEnum PaymentStatus)) PaymentStatus
             kvs (PStr s)); [simpl; tauto | reflexivity | exact Hv | discriminate |].
    intros s' E. injection E as <-. exact Hs.
Qed.

Lemma unknown_enum_value_fails_witness :
  dict_get "status" payment_with_unknown_status = Some (PStr "refunded")
  /\ ~ In "refunded" (gateway_members PaymentStatus)
  /\ exists es,
       construct V2 gateway_members timestamps_only Payment
         payment_with_unknown_status = Err es
       /\ In ([LKey "status"], NotAMember) es.
Proof.
  assert (~ In "refunded" (gateway_members PaymentStatus)) as N.
  { simpl. intros [H|[H|[H|[H|[]]]]]; discriminate H. }
  split; [reflexivity | split; [exact N|]].
  exact (proj2 (proj2 (unknown_enum_value_fails V2 gateway_members timestamps_only))
           payment_with_unknown_status "refunded" eq_refl N).
Defined.

Example CancellationDetails_unknown_party :
  construct V2 gateway_members timestamps_only CancellationDetails
    [ ("party", PStr "bank"); ("reason", PStr "general_decline") ]
  = Err [ ([LKey "party"], NotAMember) ].
Proof. reflexivity. Qed.

(** ** Aliases *)

(** C7. A CardInfo payload that gives [first6] and [last4] as strings is
    accepted when its other attributes are, and the entity holds them as
    [first_six] and [last_four].  In every class, an attribute with an alias
    is read from the payload under its wire name. *)
Theorem aliased_attributes_read_from_wire_name pyd members conv :
  (forall kvs s6 s4,
      dict_get "first6" kvs = Some (PStr s6) ->
      dict_get "last4" kvs = Some (PStr s4) ->
      is_ok (construct pyd members conv CardInfo kvs)
      = is_ok (construct pyd members conv
                 (without "first_six" (without "last_four" CardInfo)) kvs)
      /\ forall e,
           construct pyd members conv CardInfo kvs = Ok e ->
           attr "first_six" e = Some (VStr s6)
           /\ attr "last_four" e = Some (VStr s4))
  /\ (forall name cls f a kvs v e,
        In (name, cls) models -> In f cls -> falias f = Some a ->
        dict_get a kvs = Some v -> v <> PNone ->
        construct pyd members conv cls kvs = Ok e ->
        exists x, validate pyd members conv (fty f) v = Ok x
                  /\ attr (fname f) e = Some x).
Proof.
  split.
  - intros kvs s6 s4 H6 H4.
    set (f6 := Field "first_six" (TOptional TStr) (Some VNone) "first6").
    set (f4 := Field "last_four" TStr None "last4").
    assert (attr_result pyd members conv f6 kvs = Ok (VStr s6)) as A6
      by now rewrite (attr_present _ _ _ f6 kvs _ H6).
    assert (attr_result pyd members conv f4 kvs = Ok (VStr s4)) as A4
      by now rewrite (attr_present _ _ _ f4 kvs _ H4).
    split.
    + rewrite (is_ok_without _ _ _ CardInfo kvs "last_four").
      * apply is_ok_without. intros f Hf Hn.
        apply in_without in Hf as [Hf _].
        each_attribute Hf; try discriminate Hn. fold f6. now rewrite A6.
      * intros f Hf Hn.
        each_attribute Hf; try discriminate Hn. fold f4. now rewrite A4.
    + intros e He. split.
      * destruct (construct_ok_attr _ _ _ CardInfo kvs e f6 eq_refl He)
          as [x [Hx Ha]]; [simpl; tauto|].
        rewrite A6 in Hx. injection Hx as <-. exact Ha.
      * destruct (construct_ok_attr _ _ _ CardInfo kvs e f4 eq_refl He)
          as [x [Hx Ha]]; [simpl; tauto|].
        rewrite A4 in Hx. injection Hx as <-. exact Ha.
  - intros name cls f a kvs v e Hm Hin Ha Hv Hn He.
    destruct (models_distinct _ _ Hm) as [Nn _].
    destruct (construct_ok_attr _ _ _ cls kvs e f Nn He Hin) as [x [Hx Hx']].
    exists x. split; [|assumption].
    assert (wire f = a) as W by (unfold wire; now rewrite Ha).
    rewrite <- W in Hv. rewrite (attr_present _ _ _ f kvs v Hv Hn) in Hx.
    destruct (validate pyd members conv (fty f) v); simpl in Hx;
      [assumption | discriminate].
Qed.

Lemma aliased_attributes_read_from_wire_name_witness :
  dict_get "first6" sample_card = Some (PStr "411111")
  /\ dict_get "last4" sample_card = Some (PStr "1111")
  /\ is_ok (construct V2 gateway_members timestamps_only CardInfo sample_card)
     = true
  /\ forall e,
       construct V2 gateway_members timestamps_only CardInfo sample_card = Ok e ->
       attr "first_six" e = Some (VStr "411111")
       /\ attr "last_four" e = Some (VStr "1111").
Proof.
  split; [reflexivity | split; [reflexivity | split; [reflexivity|]]].
  exact (proj2 (proj1 (aliased_attributes_read_from_wire_name
                         V2 gateway_members timestamps_only)
                  sample_card "411111" "1111" eq_refl eq_refl)).
Defined.

Example CardInfo_sample :
  construct V1 gateway_members timestamps_only CardInfo sample_card
  = Ok (VModel
          [ ("first_six", VStr "411111"); ("last_four", VStr "1111");
            ("expiry_year", VStr "2030"); ("expiry_month", VStr "12");
            ("card_type", VStr "Visa"); ("card_country", VNone);
            ("bank_name", VNone); ("source", VNone) ]).
Proof. reflexivity. Qed.

(** The canonical name is not a key of the payload: [last_four] given under
    its canonical name is not read, and [last4] is reported missing. *)
Example CardInfo_canonical_name_is_not_read :
  construct V2 gateway_members timestamps_only CardInfo
    [ ("last_four", PStr "1111"); ("expiry_year", PStr "2030");
      ("expiry_month", PStr "12"); ("card_type", PStr "Visa") ]
  = Err [ ([LKey "last4"], Missing) ].
Proof. reflexivity. Qed.

(** ** 3-D Secure *)

(** C10. An AuthorizationDetails payload without the key [three_d_secure] is
    refused, the key being reported missing, although [rrn] and [auth_code]
    may both be absent: with them absent and [three_d_secure] given, the
    entity is built. *)
Theorem AuthorizationDetails_requires_three_d_secure pyd members conv :
  (forall kvs,
      dict_get "three_d_secure" kvs = None ->
      exists es, construct pyd members conv AuthorizationDetails kvs = Err es
                 /\ In ([LKey "three_d_secure"], Missing) es)
  /\ (forall b,
        construct pyd members conv AuthorizationDetails
          [ ("three_d_secure", PDict [ ("applied", PBool b) ]) ]
        = Ok (VModel
                [ ("transaction_identifier", VNone);
                  ("authorization_code", VNone);
                  ("three_d_secure", VModel [ ("applied", VBool b) ]) ])).
Proof.
  split.
  - intros kvs H.
    apply (missing_reported pyd members conv (TModel AuthorizationDetails)
             (PDict kvs)).
    apply (missing_here AuthorizationDetails kvs
             (required "three_d_secure" (TModel ThreeDSInfo)));
      [simpl; tauto | reflexivity | exact H].
  - intros b. reflexivity.
Qed.

Lemma AuthorizationDetails_requires_three_d_secure_witness :
  dict_get "three_d_secure" [ ("rrn", PStr "603668680243");
                              ("auth_code", PStr "062467") ] = None
  /\ exists es,
       construct V2 gateway_members timestamps_only AuthorizationDetails
         [ ("rrn", PStr "603668680243"); ("auth_code", PStr "062467") ] = Err es
       /\ In ([LKey "three_d_secure"], Missing) es.
Proof.
  split; [reflexivity|].
  exact (proj1 (AuthorizationDetails_requires_three_d_secure
                  V2 gateway_members timestamps_only)
           [ ("rrn", PStr "603668680243"); ("auth_code", PStr "062467") ]
           eq_refl).
Defined.

(** ** Rounding to binary64 *)

(** *** The exponent and the mantissa *)









(** *** The numbers of binary64 *)



















(** On these ratios the rounding is that of the division of IEEE 754. *)
Example float_of_ratio_is_ieee_division :
  forallb (fun p : Z * Z =>
             match float_of_ratio false (fst p) (snd p),
                   ieee_division false (fst p) (snd p) with
             | S754_finite _ m e, S754_finite _ m' e' => Pos.eqb m m' && Z.eqb e e'
             | S754_zero _, S754_zero _ => true
             | S754_infinity _, S754_infinity _ => true
             | _, _ => false
             end)
    [ (1, 10); (3, 10); (10050, 100); (25, 100); (123456789012345678, 100);
      (1, 3); (2, 3); (9007199254740993, 1); (9007199254740995, 1);
      (2 ^ 53 - 1, 2); (2 ^ 54 - 1, 2); (1, 10 ^ 400); (10 ^ 400, 1);
      (49, 10 ^ 325); (25, 10 ^ 325); (1, 2 ^ 1074); (1, 2 ^ 1075);
      (3, 2 ^ 1075); (2 ^ 1024 - 2 ^ 970, 1); (2 ^ 1024 - 2 ^ 970 - 1, 1) ]
  = true.
Proof. vm_compute. reflexivity. Qed.

(** *** Decimal literals *)







(** ** Amounts *)

(** A PaymentAmount with a negative value is built, under either version:
    the claim that none is constructible fails at [value = -100]. *)
Lemma PaymentAmount_negative_value_is_built :
  construct V1 gateway_members timestamps_only PaymentAmount
    (amount_of (PInt (-100)) "RUB") = Ok (stored_amount (VInt (-100)) "RUB")
  /\ construct V2 gateway_members timestamps_only PaymentAmount
       (amount_of (PInt (-100)) "RUB") = Ok (stored_amount (VInt (-100)) "RUB")
  /\ attr "value" (stored_amount (VInt (-100)) "RUB") = Some (VInt (-100))
  /\ numeric_value (VInt (-100)) = Some (inject_Z (-100))
  /\ (inject_Z (-100) < 0)%Q.
Proof. repeat split. Qed.

(** C5, as the code has it.  The declaration [value: int | float] bounds
    nothing: a payload with any integer value, negative or not, and a string
    currency is accepted, and the entity holds that integer. *)
Theorem PaymentAmount_accepts_any_integer pyd members conv (z : Z) (c : string) :
  construct pyd members conv PaymentAmount (amount_of (PInt z) c)
  = Ok (stored_amount (VInt z) c).
Proof. reflexivity. Qed.

(** Under pydantic 2 a negative [float] is kept as well. *)
Example PaymentAmount_negative_float :
  construct V2 gateway_members timestamps_only PaymentAmount
    (amount_of (PFloat (S754_finite true 7072058789855232 (-46))) "RUB")
  = Ok (stored_amount (VFloat (S754_finite true 7072058789855232 (-46))) "RUB").
Proof. reflexivity. Qed.




(** Decimal literals and the binary64 numbers [float()] gives them. *)
Example float_of_decimal_known_values :
  float_of_decimal false 1 1 = S754_finite false 7205759403792794 (-56)
  /\ float_of_decimal false 3 1 = S754_finite false 5404319552844595 (-54)
  /\ float_of_decimal false 10050 2 = S754_finite false 7072058789855232 (-46)
  /\ float_of_decimal true 25 2 = S754_finite true 4503599627370496 (-54)
  /\ float_of_decimal false 0 1 = S754_zero false
  /\ float_trunc (S754_finite false 7072058789855232 (-46)) = Some 100.
Proof. repeat split. Qed.

(** Under pydantic 1 the union tries [int] first, and [int] takes a [float]
    by truncation: 100.5 is stored as 100. *)
Example V1_float_is_truncated :
  construct V1 gateway_members timestamps_only PaymentAmount
    (amount_of (PFloat (S754_finite false 7072058789855232 (-46))) "RUB")
  = Ok (stored_amount (VInt 100) "RUB").
Proof. reflexivity. Qed.

(** ** Deals *)

(** C8, on the code.  [Deal.settlements] is declared [List[PaymentAmount]],
    not [List[Settlement]]: an entry of the Settlement shape, which class
    Settlement accepts, is refused as an item of a Deal, for lack of [value]
    and [currency]. *)
Theorem Deal_refuses_settlement_entries pyd members conv :
  validate pyd members conv (TModel Settlement) settlement_entry
  = Ok (VModel [ ("type", VStr "payout");
                 ("amount", stored_amount (VInt 100) "RUB") ])
  /\ construct pyd members conv Deal deal_with_settlement
     = Err [ ([LKey "settlements"; LIdx 0; LKey "value"], Missing);
             ([LKey "settlements"; LIdx 0; LKey "currency"], Missing) ]
  /\ dict_get "settlements" (map (fun f => (fname f, fty f)) Deal)
     = Some (TList (TModel PaymentAmount)).
Proof. repeat split. Qed.

(** What a Deal accepts as a settlement is a bare amount. *)
Example Deal_accepts_bare_amounts :
  construct V2 gateway_members timestamps_only Deal
    [ ("id", PStr "dl-1"); ("settlements", PList [ PDict (amount_of (PInt 100) "RUB") ]) ]
  = Ok (VModel [ ("id", VStr "dl-1");
                 ("settlements", VList [ stored_amount (VInt 100) "RUB" ]) ]).
Proof. reflexivity. Qed.

(** ** Parsing, then serialising *)

Lemma dump_attrs_model fmt cls xs :
  dump_attrs fmt cls (VModel xs)
  = map (fun f => (wire f,
                   match dict_get (fname f) xs with
                   | Some x' => dump fmt (fty f) x'
                   | None => PNone
                   end)) cls.
Proof. reflexivity. Qed.

(** A value that is already an instance of a scalar type is validated to
    itself: whatever the type it is serialised at, it comes out as it went
    in. *)
Lemma plain_roundtrip pyd members conv fmt t : forall v x,
  plain t v = true ->
  validate pyd members conv t v = Ok x ->
  forall t', dump fmt t' x = v.
Proof.
  induction t as [ | | | | | | e | t IH | t IH | fields ]; intros v x P V t';
    try (destruct v; simpl in P, V; try discriminate;
         injection V as <-; now destruct t').
  - destruct v; simpl in P, V; try discriminate.
    unfold validate_enum in V. destruct (existsb _ _); [|discriminate].
    injection V as <-. now destruct t'.
  - destruct v; try (exact (IH _ _ P V t')).
    simpl in V. injection V as <-. now destruct t'.
Qed.

(** * Further properties of the declarations *)

(** ** What a construction reads of its payload *)

Lemma construct_attr_ext pyd members conv cls kvs kvs' :
  (forall f, In f cls ->
     attr_result pyd members conv f kvs = attr_result pyd members conv f kvs') ->
  construct pyd members conv cls kvs = construct pyd members conv cls kvs'.
Proof.
  intros H. rewrite !construct_eq. do 2 f_equal.
  apply map_ext_in. intros f Hin. now rewrite (H f Hin).
Qed.

Lemma construct_ext pyd members conv cls kvs kvs' :
  (forall f, In f cls -> dict_get (wire f) kvs = dict_get (wire f) kvs') ->
  construct pyd members conv cls kvs = construct pyd members conv cls kvs'.
Proof.
  intros H. apply construct_attr_ext. intros f Hin.
  unfold attr_result, validate_attr. now rewrite (H f Hin).
Qed.

Lemma dict_get_app {A} k (d1 d2 : list (string * A)) :
  dict_get k (d1 ++ d2)
  = match dict_get k d1 with Some v => Some v | None => dict_get k d2 end.
Proof.
  induction d1 as [|[k' v'] d1 IH]; simpl; [reflexivity|].
  now destruct (String.eqb k k').
Qed.

Lemma dict_get_insert_other {A} k k' (v : A) d1 d2 :
  k' <> k ->
  dict_get k' (d1 ++ (k, v) :: d2) = dict_get k' (d1 ++ d2).
Proof.
  intros N. rewrite !dict_get_app. simpl.
  apply String.eqb_neq in N. now rewrite N.
Qed.

(** X1. A key that no attribute of the class has for wire key is not read:
    with or without the item, wherever it stands in the payload, the
    outcome is the same, entity or errors. *)
Theorem undeclared_key_is_ignored pyd members conv cls kvs1 kvs2 k v :
  ~ In k (map wire cls) ->
  construct pyd members conv cls (kvs1 ++ (k, v) :: kvs2)%list
  = construct pyd members conv cls (kvs1 ++ kvs2)%list.
Proof.
  intros N. apply construct_ext. intros f Hin.
  apply dict_get_insert_other. intros E. apply N. rewrite <- E.
  now apply in_map.
Qed.

Lemma undeclared_key_is_ignored_witness :
  ~ In "invoice_details" (map wire Payment)
  /\ construct V2 gateway_members timestamps_only Payment
       (sample_payment ++ ("invoice_details", invoice_details) :: [])%list
     = construct V2 gateway_members timestamps_only Payment (sample_payment ++ [])%list.
Proof.
  assert (~ In "invoice_details" (map wire Payment)) as N.
  { simpl. intros H. repeat (destruct H as [H|H]; [discriminate H|]). exact H. }
  split; [exact N|].
  exact (undeclared_key_is_ignored V2 gateway_members timestamps_only Payment
           sample_payment [] "invoice_details" invoice_details N).
Defined.

Lemma dict_get_In_key {A} k (d : list (string * A)) v :
  dict_get k d = Some v -> In k (map fst d).
Proof.
  induction d as [|[k' v'] d IH]; simpl; [discriminate|].
  destruct (String.eqb k k') eqn:E; [|auto].
  apply String.eqb_eq in E. auto.
Qed.

Lemma dict_get_permutation {A} (d d' : list (string * A)) :
  Permutation d d' -> NoDup (map fst d) ->
  forall k, dict_get k d = dict_get k d'.
Proof.
  induction 1 as [| [k0 v0] d d' HP IH | [k1 v1] [k2 v2] d | d d' d'' HP1 IH1 HP2 IH2];
    intros N k; simpl.
  - reflexivity.
  - destruct (String.eqb k k0); [reflexivity|].
    apply IH. simpl in N. now inversion N.
  - simpl in N. inversion N as [|? ? N1 N2]; subst.
    destruct (String.eqb k k1) eqn:E1, (String.eqb k k2) eqn:E2; try reflexivity.
    apply String.eqb_eq in E1, E2. subst. destruct N1. now left.
  - rewrite (IH1 N k). apply IH2.
    apply (Permutation_NoDup (Permutation_map fst HP1) N).
Qed.

(** X2. The order of the items of a payload does not matter: two payloads
    with the same items, each key once, give the same outcome. *)
Theorem payload_order_is_irrelevant pyd members conv cls kvs kvs' :
  NoDup (map fst kvs) -> Permutation kvs kvs' ->
  construct pyd members conv cls kvs = construct pyd members conv cls kvs'.
Proof.
  intros N HP. apply construct_ext. intros f _.
  now apply dict_get_permutation.
Qed.

Lemma payload_order_is_irrelevant_witness :
  NoDup (map fst sample_transfer)
  /\ Permutation sample_transfer (rev sample_transfer)
  /\ construct V1 gateway_members timestamps_only Transfer sample_transfer
     = construct V1 gateway_members timestamps_only Transfer (rev sample_transfer).
Proof.
  assert (NoDup (map fst sample_transfer)) as N.
  { simpl. repeat constructor; simpl; intros H;
      repeat (destruct H as [H|H]; [discriminate H|]); exact H. }
  assert (Permutation sample_transfer (rev sample_transfer)) as HP
    by apply Permutation_rev.
  split; [exact N | split; [exact HP|]].
  exact (payload_order_is_irrelevant V1 gateway_members timestamps_only Transfer
           sample_transfer (rev sample_transfer) N HP).
Defined.

Lemma wire_injective cls f g :
  nodupb (map wire cls) = true -> In f cls -> In g cls ->
  wire g = wire f -> g = f.
Proof.
  intros N Hf Hg E. induction cls as [|h cls IH]; [easy|].
  destruct Hf as [->|Hf], Hg as [->|Hg]; trivial.
  - pose proof (nodupb_cons_notin _ _ _ N (in_map wire _ _ Hg)) as C.
    rewrite E, String.eqb_refl in C. discriminate.
  - pose proof (nodupb_cons_notin _ _ _ N (in_map wire _ _ Hf)) as C.
    rewrite <- E, String.eqb_refl in C. discriminate.
  - apply IH; trivial. simpl in N. now apply andb_prop in N.
Qed.

(** In no class is the canonical name of an aliased attribute the wire key
    of an attribute. *)
Lemma canonical_names_are_no_wire_keys name cls f a :
  In (name, cls) models -> In f cls -> falias f = Some a ->
  ~ In (fname f) (map wire cls).
Proof.
  assert (forallb (fun m : string * model =>
            forallb (fun f : field =>
                       match falias f with
                       | Some _ => negb (existsb (String.eqb (fname f))
                                           (map wire (snd m)))
                       | None => true
                       end) (snd m)) models = true) as H by reflexivity.
  rewrite forallb_forall in H. intros Hm Hf Ha Hin.
  specialize (H _ Hm). simpl in H. rewrite forallb_forall in H.
  specialize (H _ Hf). rewrite Ha in H. apply negb_true_iff in H.
  apply existsb_eqb_In in Hin. congruence.
Qed.

(** X3. An attribute with an alias is read under the alias only: in every
    class, an item of the payload under the canonical name of an aliased
    attribute changes nothing to the outcome. *)
Theorem canonical_name_is_not_read pyd members conv name cls f a kvs1 kvs2 v :
  In (name, cls) models -> In f cls -> falias f = Some a ->
  construct pyd members conv cls (kvs1 ++ (fname f, v) :: kvs2)%list
  = construct pyd members conv cls (kvs1 ++ kvs2)%list.
Proof.
  intros Hm Hf Ha. apply construct_ext. intros g Hg.
  apply dict_get_insert_other. intros E.
  apply (canonical_names_are_no_wire_keys _ _ _ _ Hm Hf Ha).
  rewrite <- E. now apply in_map.
Qed.

Lemma canonical_name_is_not_read_witness :
  In ("Confirmation", Confirmation) models
  /\ In (Field "url" (TOptional TStr) (Some VNone) "confirmation_url") Confirmation
  /\ construct V2 gateway_members timestamps_only Confirmation
       ([ ("type", PStr "redirect") ]
        ++ ("url", PStr "https://example.com/pay") :: [])%list
     = construct V2 gateway_members timestamps_only Confirmation
         ([ ("type", PStr "redirect") ] ++ [])%list
  /\ construct V2 gateway_members timestamps_only Confirmation
       [ ("type", PStr "redirect") ]
     = Ok (VModel [ ("type", VEnum ConfirmationType "redirect");
                    ("enforce", VNone); ("locale", VNone);
                    ("return_url", VNone); ("url", VNone) ]).
Proof.
  assert (In ("Confirmation", Confirmation) models) as M by (simpl; tauto).
  assert (In (Field "url" (TOptional TStr) (Some VNone) "confirmation_url")
             Confirmation) as F by (simpl; tauto).
  split; [exact M | split; [exact F | split; [|reflexivity]]].
  exact (canonical_name_is_not_read V2 gateway_members timestamps_only
           "Confirmation" Confirmation _ "confirmation_url"
           [ ("type", PStr "redirect") ] [] (PStr "https://example.com/pay")
           M F eq_refl).
Defined.

(** ** [None] *)

Lemma dict_get_remove_same {A} k (d : list (string * A)) :
  dict_get k (dict_remove k d) = None.
Proof.
  induction d as [|[k' v'] d IH]; simpl; [reflexivity|].
  destruct (String.eqb k' k) eqn:E; simpl; [exact IH|].
  rewrite String.eqb_sym, E. exact IH.
Qed.

Lemma dict_get_remove_other {A} k k' (d : list (string * A)) :
  k' <> k -> dict_get k' (dict_remove k d) = dict_get k' d.
Proof.
  intros N. induction d as [|[k0 v0] d IH]; simpl; [reflexivity|].
  destruct (String.eqb k0 k) eqn:E; simpl.
  - apply String.eqb_eq in E. subst k0.
    apply String.eqb_neq in N. now rewrite N.
  - now rewrite IH.
Qed.

(** X4. For an attribute declared [t | None = None], [None] in the payload
    and no item at all are the same: in every class, removing such an item
    from the payload leaves the outcome as it is. *)
Theorem none_is_absence_for_optional pyd members conv name cls f t kvs :
  In (name, cls) models -> In f cls ->
  fty f = TOptional t -> fdefault f = Some VNone ->
  dict_get (wire f) kvs = Some PNone ->
  construct pyd members conv cls kvs
  = construct pyd members conv cls (dict_remove (wire f) kvs).
Proof.
  intros Hm Hf Ht Hd Hv. destruct (models_distinct _ _ Hm) as [_ Nw].
  apply construct_attr_ext. intros g Hg.
  destruct (String.eqb (wire g) (wire f)) eqn:E.
  - apply String.eqb_eq in E.
    rewrite (wire_injective _ _ _ Nw Hf Hg E).
    rewrite (attr_absent_default _ _ _ f _ VNone (dict_get_remove_same _ _) Hd).
    unfold attr_result, validate_attr. rewrite Hv, Ht.
    now destruct (allow_none pyd f).
  - apply String.eqb_neq in E.
    unfold attr_result, validate_attr.
    now rewrite (dict_get_remove_other _ _ kvs E).
Qed.

Lemma none_is_absence_for_optional_witness :
  In ("Payment", Payment) models
  /\ In (optional "description" (TOptional TStr)) Payment
  /\ dict_get "description" (("description", PNone) :: payment_without_created_at)
     = Some PNone
  /\ construct V2 gateway_members timestamps_only Payment
       (("description", PNone) :: payment_without_created_at)
     = construct V2 gateway_members timestamps_only Payment
         (dict_remove "description"
            (("description", PNone) :: payment_without_created_at)).
Proof.
  assert (In ("Payment", Payment) models) as M by (simpl; tauto).
  assert (In (optional "description" (TOptional TStr)) Payment) as F
    by (simpl; tauto).
  split; [exact M | split; [exact F | split; [reflexivity|]]].
  exact (none_is_absence_for_optional V2 gateway_members timestamps_only
           "Payment" Payment _ TStr
           (("description", PNone) :: payment_without_created_at)
           M F eq_refl eq_refl eq_refl).
Defined.

(** X5. [items] may be absent from a PaymentsList payload, not [None]: the
    attribute is declared [List[Payment]] with the default [[]], and [None]
    under [items] is refused, under either version. *)
Theorem PaymentsList_items_none_is_refused pyd members conv kvs :
  dict_get "items" kvs = Some PNone ->
  exists es, construct pyd members conv PaymentsList kvs = Err es
             /\ In ([LKey "items"], NoneNotAllowed) es.
Proof.
  intros H. apply not_ok_of_error.
  rewrite errors_of_construct. unfold PaymentsList. cbn [flat_map].
  apply in_or_app. left.
  unfold attr_result, validate_attr. cbn [wire falias Field]. rewrite H.
  destruct pyd; simpl; now left.
Qed.

Lemma PaymentsList_items_none_is_refused_witness :
  dict_get "items" [ ("items", PNone); ("cursor", PStr "next") ] = Some PNone
  /\ exists es,
       construct V1 gateway_members timestamps_only PaymentsList
         [ ("items", PNone); ("cursor", PStr "next") ] = Err es
       /\ In ([LKey "items"], NoneNotAllowed) es.
Proof.
  split; [reflexivity|].
  exact (PaymentsList_items_none_is_refused V1 gateway_members timestamps_only
           [ ("items", PNone); ("cursor", PStr "next") ] eq_refl).
Defined.

(** X6. [None] under [platform_fee_amount], whose attribute is declared
    [PaymentAmount] with the default [None]: pydantic 1 takes it, the entity
    having [fee_amount] equal to [None] as when the key is absent, and
    pydantic 2 refuses it. *)
Theorem Transfer_fee_none_depends_on_version members conv kvs :
  dict_get "platform_fee_amount" kvs = Some PNone ->
  construct V1 members conv Transfer kvs
  = construct V1 members conv Transfer (dict_remove "platform_fee_amount" kvs)
  /\ exists es, construct V2 members conv Transfer kvs = Err es
                /\ In ([LKey "platform_fee_amount"], NoneNotAllowed) es.
Proof.
  intros H. split.
  - apply construct_attr_ext. intros g Hg.
    each_attribute Hg;
      try (unfold attr_result, validate_attr; cbn [wire falias required optional];
           now rewrite dict_get_remove_other by discriminate).
    unfold attr_result, validate_attr. cbn [wire falias Field].
    now rewrite H, dict_get_remove_same.
  - apply not_ok_of_error.
    rewrite errors_of_construct, in_flat_map.
    exists (Field "fee_amount" (TModel PaymentAmount) (Some VNone)
              "platform_fee_amount").
    split; [simpl; tauto|].
    unfold attr_result, validate_attr. cbn [wire falias Field]. rewrite H.
    simpl. now left.
Qed.

Lemma Transfer_fee_none_depends_on_version_witness :
  dict_get "platform_fee_amount"
    (sample_transfer ++ [ ("platform_fee_amount", PNone) ])%list = Some PNone
  /\ is_ok (construct V1 gateway_members timestamps_only Transfer
              (sample_transfer ++ [ ("platform_fee_amount", PNone) ])%list) = true
  /\ is_ok (construct V2 gateway_members timestamps_only Transfer
              (sample_transfer ++ [ ("platform_fee_amount", PNone) ])%list) = false
  /\ construct V1 gateway_members timestamps_only Transfer
       (sample_transfer ++ [ ("platform_fee_amount", PNone) ])%list
     = construct V1 gateway_members timestamps_only Transfer
         (dict_remove "platform_fee_amount"
            (sample_transfer ++ [ ("platform_fee_amount", PNone) ])%list).
Proof.
  split; [reflexivity | split; [reflexivity | split; [reflexivity|]]].
  exact (proj1 (Transfer_fee_none_depends_on_version gateway_members
                  timestamps_only
                  (sample_transfer ++ [ ("platform_fee_amount", PNone) ])%list
                  eq_refl)).
Defined.

(** ** Lists *)

Lemma validate_items_ok check l : forall i xs,
  validate_items check i l = Ok xs <-> Forall2 (fun v x => check v = Ok x) l xs.
Proof.
  induction l as [|v l IH]; intros i xs; simpl.
  - split.
    + intros H. injection H as <-. constructor.
    + intros H. now inversion H.
  - split.
    + intros H.
      destruct (check v) as [x|es] eqn:C; simpl in H;
        destruct (validate_items check (S i) l) as [xs'|es'] eqn:V;
        simpl in H; try discriminate.
      injection H as <-. constructor; [assumption|]. now apply (IH (S i)).
    + intros H. inversion H as [|? x ? xs' C F]; subst.
      rewrite C. simpl. apply (IH (S i)) in F. now rewrite F.
Qed.

(** X7. An attribute that holds a list keeps the items of the payload, all
    of them and in their order: in every class, when the payload gives a
    list and the entity is built, the attribute is the list of the validated
    items, one for one.  An empty list is accepted as it is. *)
Theorem list_attribute_keeps_items pyd members conv name cls f t kvs l e :
  In (name, cls) models -> In f cls -> item_type (fty f) = Some t ->
  dict_get (wire f) kvs = Some (PList l) ->
  construct pyd members conv cls kvs = Ok e ->
  exists xs, attr (fname f) e = Some (VList xs)
             /\ Forall2 (fun v x => validate pyd members conv t v = Ok x) l xs.
Proof.
  intros Hm Hf Ht Hv He. destruct (models_distinct _ _ Hm) as [Nn _].
  destruct (construct_ok_attr _ _ _ cls kvs e f Nn He Hf) as [x [Hx Ha]].
  rewrite (attr_present _ _ _ f kvs _ Hv) in Hx by discriminate.
  assert (validate pyd members conv (TList t) (PList l) = Ok x) as V.
  { destruct (validate pyd members conv (fty f) (PList l)) as [y|] eqn:Y;
      simpl in Hx; [|discriminate].
    injection Hx as <-. rewrite <- Y.
    destruct (fty f) as [ | | | | | | | t0 | t0 | ]; try discriminate Ht.
    - destruct t0; try discriminate Ht. now injection Ht as ->.
    - now injection Ht as ->. }
  simpl in V.
  destruct (validate_items _ 0 l) as [xs|] eqn:I; simpl in V; [|discriminate].
  injection V as <-. exists xs. split; [assumption|].
  now apply (validate_items_ok _ l 0%nat xs).
Qed.

Lemma list_attribute_keeps_items_witness :
  In ("Deal", Deal) models
  /\ In (required "settlements" (TList (TModel PaymentAmount))) Deal
  /\ exists xs,
       attr "settlements"
         (VModel [ ("id", VStr "dl-1");
                   ("settlements", VList [ stored_amount (VInt 70) "RUB";
                                           stored_amount (VInt 30) "RUB" ]) ])
       = Some (VList xs)
       /\ Forall2 (fun v x =>
                     validate V2 gateway_members timestamps_only
                       (TModel PaymentAmount) v = Ok x)
            [ PDict (amount_of (PInt 70) "RUB"); PDict (amount_of (PInt 30) "RUB") ]
            xs.
Proof.
  assert (In ("Deal", Deal) models) as M by (simpl; tauto).
  assert (In (required "settlements" (TList (TModel PaymentAmount))) Deal) as F
    by (simpl; tauto).
  split; [exact M | split; [exact F|]].
  exact (list_attribute_keeps_items V2 gateway_members timestamps_only
           "Deal" Deal _ (TModel PaymentAmount)
           [ ("id", PStr "dl-1");
             ("settlements", PList [ PDict (amount_of (PInt 70) "RUB");
                                     PDict (amount_of (PInt 30) "RUB") ]) ]
           _ _ M F eq_refl eq_refl eq_refl).
Defined.

(** A list attribute takes the empty list, under any parameters. *)
Example Deal_without_settlements pyd members conv :
  construct pyd members conv Deal
    [ ("id", PStr "dl-285e5ee7-0022-5000-8000-01516a44b147");
      ("settlements", PList []) ]
  = Ok (VModel [ ("id", VStr "dl-285e5ee7-0022-5000-8000-01516a44b147");
                 ("settlements", VList []) ]).
Proof. reflexivity. Qed.

(** ** Errors *)

(** X8. The errors of a construction are located under the wire keys of the
    class, each under the key of the attribute it comes from: every error
    starts with the wire key of an attribute, and every error found in the
    value of an attribute is reported, under its key, the construction
    failing. *)
Theorem errors_are_under_the_wire_key pyd members conv cls kvs :
  (forall p k,
      In (p, k) (errors_of (construct pyd members conv cls kvs)) ->
      exists f q, In f cls /\ p = LKey (wire f) :: q)
  /\ (forall f v es p k,
        In f cls -> dict_get (wire f) kvs = Some v -> v <> PNone ->
        validate pyd members conv (fty f) v = Err es -> In (p, k) es ->
        exists es', construct pyd members conv cls kvs = Err es'
                    /\ In (LKey (wire f) :: p, k) es').
Proof.
  split.
  - intros p k H. rewrite errors_of_construct, in_flat_map in H.
    destruct H as [f [Hf He]].
    destruct (attr_errors_loc _ _ _ _ _ _ _ He) as [q ->]. eauto.
  - intros f v es p k Hf Hv Hn He Hp. apply not_ok_of_error.
    rewrite errors_of_construct, in_flat_map. exists f. split; [assumption|].
    rewrite (attr_present _ _ _ f kvs v Hv Hn), He. simpl.
    apply in_map_iff. exists (p, k). auto.
Qed.

Lemma errors_are_under_the_wire_key_witness :
  In (required "amount" (TModel PaymentAmount)) Settlement
  /\ validate V2 gateway_members timestamps_only (TModel PaymentAmount)
       (PDict [ ("value", PStr "ten"); ("currency", PStr "RUB") ])
     = Err [ ([LKey "value"; LKey "int"], Invalid);
             ([LKey "value"; LKey "float"], Invalid) ]
  /\ exists es',
       construct V2 gateway_members timestamps_only Settlement
         [ ("type", PStr "payout");
           ("amount", PDict [ ("value", PStr "ten"); ("currency", PStr "RUB") ]) ]
       = Err es'
       /\ In ([LKey "amount"; LKey "value"; LKey "float"], Invalid) es'.
Proof.
  assert (In (required "amount" (TModel PaymentAmount)) Settlement) as F
    by (simpl; tauto).
  split; [exact F | split; [reflexivity|]].
  refine (proj2 (errors_are_under_the_wire_key V2 gateway_members timestamps_only
                   Settlement
                   [ ("type", PStr "payout");
                     ("amount", PDict [ ("value", PStr "ten");
                                        ("currency", PStr "RUB") ]) ])
            (required "amount" (TModel PaymentAmount))
            (PDict [ ("value", PStr "ten"); ("currency", PStr "RUB") ])
            [ ([LKey "value"; LKey "int"], Invalid);
              ([LKey "value"; LKey "float"], Invalid) ]
            [LKey "value"; LKey "float"] Invalid
            F eq_refl _ eq_refl _).
  - discriminate.
  - right. now left.
Defined.

(** The union [int | float] reports one error for each member: pydantic 1
    locates both at the attribute, pydantic 2 each under the name of its
    member. *)
Example Settlement_amount_value_errors :
  construct V1 gateway_members timestamps_only Settlement
    [ ("type", PStr "payout");
      ("amount", PDict [ ("value", PStr "ten"); ("currency", PStr "RUB") ]) ]
  = Err [ ([LKey "amount"; LKey "value"], Invalid);
          ([LKey "amount"; LKey "value"], Invalid) ]
  /\ construct V2 gateway_members timestamps_only Settlement
       [ ("type", PStr "payout");
         ("amount", PDict [ ("value", PStr "ten"); ("currency", PStr "RUB") ]) ]
     = Err [ ([LKey "amount"; LKey "value"; LKey "int"], Invalid);
             ([LKey "amount"; LKey "value"; LKey "float"], Invalid) ].
Proof. split; reflexivity. Qed.

(** ** The empty payload *)

(** X9. Called on nothing, a class that has mandatory attributes reports
    every one of them missing, in declaration order, and nothing else; a
    class that has none gives the entity of its defaults.  The classes of the
    module that the empty payload builds are PaymentsList, Customer,
    MarkCodeInfo and Airline. *)
Theorem empty_payload pyd members conv :
  (forall cls,
      construct pyd members conv cls []
      = match mandatory cls with
        | [] => Ok (defaults_of cls)
        | _ :: _ => Err (map (fun f => ([LKey (wire f)], Missing)) (mandatory cls))
        end)
  /\ map fst (filter (fun m => is_ok (construct pyd members conv (snd m) []))
                models)
     = [ "PaymentsList"; "Customer"; "MarkCodeInfo"; "Airline" ].
Proof.
  split; [|reflexivity].
  intros cls. rewrite construct_eq. unfold defaults_of.
  assert (collect (map (fun f => named (fname f)
                                   (attr_result pyd members conv f [])) cls)
          = match mandatory cls with
            | [] => Ok (map (fun f => (fname f,
                                       match fdefault f with
                                       | Some d => d
                                       | None => VNone
                                       end)) cls)
            | _ :: _ => Err (map (fun f => ([LKey (wire f)], Missing))
                               (mandatory cls))
            end) as C.
  { unfold collect. induction cls as [|f cls IH]; [reflexivity|].
    cbn [map fold_right]. rewrite IH.
    unfold attr_result, validate_attr, mandatory. cbn [dict_get filter].
    fold (mandatory cls).
    destruct (fdefault f) as [d|]; simpl;
      now destruct (mandatory cls). }
  rewrite C. now destruct (mandatory cls).
Qed.

(** ** Attributes are validated one by one *)

(** X10. The status of a Payment and its cancellation details are not
    checked against each other: with any member of PaymentStatus as status
    and any valid cancellation details, the payload is accepted when its
    other attributes are, and the entity holds both. *)
Theorem Payment_status_and_cancellation_are_independent
    pyd members conv kvs s cd x :
  In s (members PaymentStatus) ->
  dict_get "status" kvs = Some (PStr s) ->
  dict_get "cancellation_details" kvs = Some (PDict cd) ->
  construct pyd members conv CancellationDetails cd = Ok x ->
  is_ok (construct pyd members conv Payment kvs)
  = is_ok (construct pyd members conv
             (without "status" (without "cancellation_details" Payment)) kvs)
  /\ forall e,
       construct pyd members conv Payment kvs = Ok e ->
       attr "status" e = Some (VEnum PaymentStatus s)
       /\ attr "cancellation_details" e = Some x.
Proof.
  intros Hm Hs Hc Hx.
  set (st := required "status" (TEnum PaymentStatus)).
  set (cf := optional "cancellation_details"
               (TOptional (TModel CancellationDetails))).
  assert (attr_result pyd members conv cf kvs = Ok x) as Acd.
  { rewrite (attr_present _ _ _ cf kvs _ Hc) by discriminate.
    change (validate pyd members conv (fty cf) (PDict cd))
      with (construct pyd members conv CancellationDetails cd).
    now rewrite Hx. }
  assert (attr_result pyd members conv st kvs = Ok (VEnum PaymentStatus s)) as Ast.
  { rewrite (attr_present _ _ _ st kvs _ Hs) by discriminate.
    cbn [fty st required]. now rewrite validate_enum_member. }
  split.
  - rewrite (is_ok_without _ _ _ Payment kvs "cancellation_details").
    + apply is_ok_without. intros f Hf Hn.
      apply in_without in Hf as [Hf _].
      each_attribute Hf; try discriminate Hn. fold st. now rewrite Ast.
    + intros f Hf Hn.
      each_attribute Hf; try discriminate Hn. fold cf. now rewrite Acd.
  - intros e He. split.
    + destruct (construct_ok_attr _ _ _ Payment kvs e st eq_refl He)
        as [y [Hy Ha]]; [simpl; tauto|].
      rewrite Ast in Hy. injection Hy as <-. exact Ha.
    + destruct (construct_ok_attr _ _ _ Payment kvs e cf eq_refl He)
        as [y [Hy Ha]]; [simpl; tauto|].
      rewrite Acd in Hy. injection Hy as <-. exact Ha.
Qed.

Lemma Payment_status_and_cancellation_are_independent_witness :
  In "succeeded" (gateway_members PaymentStatus)
  /\ dict_get "status" succeeded_with_cancellation = Some (PStr "succeeded")
  /\ is_ok (construct V2 gateway_members timestamps_only Payment
              succeeded_with_cancellation) = true
  /\ forall e,
       construct V2 gateway_members timestamps_only Payment
         succeeded_with_cancellation = Ok e ->
       attr "status" e = Some (VEnum PaymentStatus "succeeded")
       /\ attr "cancellation_details" e
          = Some (VModel [ ("party", VEnum CancellationParty "merchant");
                           ("reason", VEnum CancellationReason
                                        "canceled_by_merchant") ]).
Proof.
  assert (In "succeeded" (gateway_members PaymentStatus)) as M by (simpl; tauto).
  split; [exact M | split; [reflexivity | split; [reflexivity|]]].
  exact (proj2 (Payment_status_and_cancellation_are_independent
                  V2 gateway_members timestamps_only succeeded_with_cancellation
                  "succeeded"
                  [ ("party", PStr "merchant");
                    ("reason", PStr "canceled_by_merchant") ]
                  _ M eq_refl eq_refl eq_refl)).
Defined.

(** X11. The type of a PaymentMethod is a string like any other: whatever
    string it is, it is kept as it is, and the payload is accepted when its
    other attributes are, the card and the bank details among them, which no
    type excludes. *)
Theorem PaymentMethod_type_is_free pyd members conv kvs t :
  dict_get "type" kvs = Some (PStr t) ->
  is_ok (construct pyd members conv PaymentMethod kvs)
  = is_ok (construct pyd members conv (without "type" PaymentMethod) kvs)
  /\ forall e,
       construct pyd members conv PaymentMethod kvs = Ok e ->
       attr "type" e = Some (VStr t).
Proof.
  intros Ht.
  set (ty := required "type" TStr).
  assert (attr_result pyd members conv ty kvs = Ok (VStr t)) as A
    by now rewrite (attr_present _ _ _ ty kvs _ Ht).
  split.
  - apply is_ok_without. intros f Hf Hn.
    each_attribute Hf; try discriminate Hn. fold ty. now rewrite A.
  - intros e He.
    destruct (construct_ok_attr _ _ _ PaymentMethod kvs e ty eq_refl He)
      as [y [Hy Ha]]; [simpl; tauto|].
    rewrite A in Hy. injection Hy as <-. exact Ha.
Qed.

Lemma PaymentMethod_type_is_free_witness :
  dict_get "type" method_with_card = Some (PStr "sbp")
  /\ is_ok (construct V2 gateway_members timestamps_only PaymentMethod
              method_with_card) = true
  /\ forall e,
       construct V2 gateway_members timestamps_only PaymentMethod
         method_with_card = Ok e ->
       attr "type" e = Some (VStr "sbp").
Proof.
  split; [reflexivity | split; [reflexivity|]].
  exact (proj2 (PaymentMethod_type_is_free V2 gateway_members timestamps_only
                  method_with_card "sbp" eq_refl)).
Defined.

(** X12. A MarkQuantity takes any two integers: nothing relates the
    numerator to the denominator, and a denominator of zero is accepted. *)
Theorem MarkQuantity_takes_any_integers pyd members conv kvs n d :
  dict_get "numerator" kvs = Some (PInt n) ->
  dict_get "denominator" kvs = Some (PInt d) ->
  construct pyd members conv MarkQuantity kvs
  = Ok (VModel [ ("numerator", VInt n); ("denominator", VInt d) ]).
Proof.
  intros Hn Hd. rewrite construct_eq. unfold MarkQuantity. cbn [map].
  rewrite (attr_present _ _ _ (required "numerator" TInt) kvs _ Hn)
    by discriminate.
  rewrite (attr_present _ _ _ (required "denominator" TInt) kvs _ Hd)
    by discriminate.
  reflexivity.
Qed.

Lemma MarkQuantity_takes_any_integers_witness :
  dict_get "numerator" [ ("numerator", PInt 1); ("denominator", PInt 0) ]
  = Some (PInt 1)
  /\ dict_get "denominator" [ ("numerator", PInt 1); ("denominator", PInt 0) ]
     = Some (PInt 0)
  /\ construct V1 gateway_members timestamps_only MarkQuantity
       [ ("numerator", PInt 1); ("denominator", PInt 0) ]
     = Ok (VModel [ ("numerator", VInt 1); ("denominator", VInt 0) ]).
Proof.
  split; [reflexivity | split; [reflexivity|]].
  exact (MarkQuantity_takes_any_integers V1 gateway_members timestamps_only
           [ ("numerator", PInt 1); ("denominator", PInt 0) ] 1 0
           eq_refl eq_refl).
Defined.

(** ** Serialising, then constructing again *)

Lemma well_formed_fields fields :
  well_formed (TModel fields) = true ->
  nodupb (map fname fields) = true /\ nodupb (map wire fields) = true
  /\ Forall (fun f => default_fits f = true /\ well_formed (fty f) = true) fields.
Proof.
  simpl. intros H. apply andb_prop in H as [H A]. apply andb_prop in H as [Nn Nw].
  split; [assumption | split; [assumption|]].
  clear Nn Nw. induction fields as [|f fs IH]; constructor.
  - apply andb_prop in A as [A _]. now apply andb_prop in A.
  - apply IH. now apply andb_prop in A.
Qed.

Lemma settled_fields pyd conv fmt fields attrs :
  settled pyd conv fmt (TModel fields) (VModel attrs) ->
  Forall (fun f => exists x, dict_get (fname f) attrs = Some x
                             /\ settled pyd conv fmt (fty f) x
                             /\ (x = VNone ->
                                 is_optional (fty f) = true
                                 \/ allow_none pyd f = true)) fields.
Proof.
  simpl. induction fields as [|f fs IH]; intros H; constructor.
  - destruct H as [H _]. destruct (dict_get (fname f) attrs) as [x|]; [|easy].
    exists x. tauto.
  - apply IH. apply H.
Qed.

Lemma dump_none fmt t : dump fmt t VNone = PNone.
Proof. now destruct t. Qed.

Lemma dump_optional fmt t x :
  is_optional t = false -> dump fmt (TOptional t) x = dump fmt t x.
Proof. destruct t; try discriminate; intros _; now destruct x. Qed.

Lemma validate_not_optional_none pyd members conv t :
  is_optional t = false ->
  exists es, validate pyd members conv t PNone = Err es.
Proof.
  destruct t; try discriminate; intros _; simpl; eauto.
  unfold validate_int_or_float, union_refused. destruct pyd; eauto.
Qed.

Lemma validate_optional_some pyd members conv t w :
  w <> PNone ->
  validate pyd members conv (TOptional t) w = validate pyd members conv t w.
Proof. destruct w; [congruence | reflexivity ..]. Qed.

Lemma under_ok {A} i (r : result A) a : under i r = Ok a -> r = Ok a.
Proof. destruct r; simpl; [trivial | discriminate]. Qed.

Lemma dict_get_map_wire {A} (E : field -> A) fields f :
  nodupb (map wire fields) = true -> In f fields ->
  dict_get (wire f) (map (fun g => (wire g, E g)) fields) = Some (E f).
Proof.
  induction fields as [|g fs IH]; intros N Hin; [easy|].
  simpl. destruct Hin as [->|Hin].
  - now rewrite String.eqb_refl.
  - rewrite (nodupb_cons_notin _ _ _ N (in_map wire _ _ Hin)).
    apply IH; trivial. simpl in N. now apply andb_prop in N.
Qed.

Section ReadBack.

Variable pyd : pydantic.
Variable members : enum_class -> list string.
Variable conv : conversions.
Variable fmt : datetime -> string.

Local Abbreviation validate' := (validate pyd members conv).
Local Abbreviation settled' := (settled pyd conv fmt).

Lemma revalidate_none f D :
  is_optional (fty f) = true \/ allow_none pyd f = true ->
  dict_get (wire f) D = Some PNone ->
  validate_attr pyd (validate' (fty f)) f D = Ok VNone.
Proof.
  intros C G. unfold validate_attr. rewrite G.
  destruct (allow_none pyd f); [reflexivity|].
  destruct C as [C|C]; [|discriminate].
  now destruct (fty f).
Qed.

Lemma revalidate_value f D v x :
  (forall v y, validate' (fty f) v = Ok y -> settled' (fty f) y ->
               validate' (fty f) (dump fmt (fty f) y) = Ok y) ->
  validate' (fty f) v = Ok x ->
  settled' (fty f) x ->
  (x = VNone -> is_optional (fty f) = true \/ allow_none pyd f = true) ->
  dict_get (wire f) D = Some (dump fmt (fty f) x) ->
  validate_attr pyd (validate' (fty f)) f D = Ok x.
Proof.
  intros IH V S C G. pose proof (IH v x V S) as R.
  destruct (dump fmt (fty f) x) eqn:W;
    try (unfold validate_attr; rewrite G, R; reflexivity).
  destruct (validate_None pyd members conv (fty f)) as [N|[es [N _]]];
    rewrite N in R; [|discriminate].
  injection R as <-. now apply revalidate_none; auto.
Qed.

Lemma revalidate_attr f kvs D x :
  default_fits f = true ->
  (forall v y, validate' (fty f) v = Ok y -> settled' (fty f) y ->
               validate' (fty f) (dump fmt (fty f) y) = Ok y) ->
  attr_result pyd members conv f kvs = Ok x ->
  settled' (fty f) x ->
  (x = VNone -> is_optional (fty f) = true \/ allow_none pyd f = true) ->
  dict_get (wire f) D = Some (dump fmt (fty f) x) ->
  validate_attr pyd (validate' (fty f)) f D = Ok x.
Proof.
  intros DF IH R S C G. unfold attr_result, validate_attr in R.
  destruct (dict_get (wire f) kvs) as [v|] eqn:K.
  - destruct v;
      try (apply under_ok in R; now apply (revalidate_value f D _ x IH R)).
    destruct (allow_none pyd f) eqn:A.
    + injection R as <-. rewrite dump_none in G. apply revalidate_none; auto.
    + apply under_ok in R. apply (revalidate_value f D _ x IH R); trivial.
      intros E. destruct (C E) as [O|O]; [now left | discriminate O].
  - unfold default_fits in DF.
    destruct (fdefault f) as [d|]; [|discriminate]. injection R as ->.
    destruct x; try discriminate.
    + rewrite dump_none in G. apply revalidate_none; auto.
    + destruct l; [|discriminate].
      destruct (fty f) eqn:T; try discriminate.
      unfold validate_attr. rewrite G. reflexivity.
Qed.

End ReadBack.

Lemma from_option_shape {A} (o : option A) k x :
  from_option o k = Ok x -> exists a, x = k a.
Proof. destruct o; simpl; intros H; [injection H as <-; eauto | discriminate]. Qed.

Lemma validate_int_or_float_shape pyd conv v x :
  validate_int_or_float pyd conv v = Ok x ->
  (exists z, x = VInt z) \/ (exists f, x = VFloat f).
Proof.
  assert (forall w, convert_number pyd conv w = Ok x ->
            (exists z, x = VInt z) \/ (exists f, x = VFloat f)) as L.
  { intros w H. unfold convert_number, union_refused in H.
    destruct (to_int conv w); [injection H as <-; eauto|].
    destruct (to_float conv w); [injection H as <-; eauto|].
    destruct pyd; discriminate H. }
  unfold validate_int_or_float. intros H.
  destruct v; try (exact (L _ H)).
  - unfold union_refused in H. destruct pyd; discriminate H.
  - injection H as <-. eauto.
  - destruct pyd; [destruct (float_trunc f)|]; injection H as <-; eauto.
  - destruct (numeric_literal s); [injection H as <-; eauto | | exact (L _ H)].
    destruct pyd; [injection H as <-; eauto|].
    destruct (_ =? 0); [|injection H as <-; eauto].
    destruct (Nat.leb _ _); [injection H as <-; eauto | exact (L _ H)].
Qed.

(** A validated value has the shape of the declared type. *)
Lemma validate_shape pyd members conv t v x :
  validate pyd members conv t v = Ok x -> fits_shape t x = true.
Proof.
  destruct t; try reflexivity; intros H.
  - destruct v; simpl in H; try discriminate H;
      try (apply from_option_shape in H as [a ->]; reflexivity).
    now injection H as <-.
  - destruct v; simpl in H; try discriminate H;
      try (apply from_option_shape in H as [a ->]; reflexivity).
    now injection H as <-.
  - destruct v; simpl in H; try discriminate H;
      try (apply from_option_shape in H as [a ->]; reflexivity).
    now injection H as <-.
  - assert (validate_int_or_float pyd conv v = Ok x) as H'
      by (destruct v; simpl in H; try discriminate H; exact H).
    now destruct (validate_int_or_float_shape _ _ _ _ H') as [[z ->]|[f ->]].
  - destruct v; simpl in H; try discriminate H;
      try (apply from_option_shape in H as [a ->]; reflexivity).
    now injection H as <-.
  - destruct v; simpl in H; try discriminate H;
      try (apply from_option_shape in H as [a ->]; reflexivity).
    now injection H as <-.
  - destruct v; simpl in H; try discriminate H.
    unfold validate_enum in H. destruct (existsb _ _); [|discriminate H].
    now injection H as <-.
  - destruct v; simpl in H; try discriminate H.
    destruct (validate_items _ _ _); simpl in H; [|discriminate H].
    now injection H as <-.
  - destruct v; simpl in H; try discriminate H;
      repeat match type of H with
             | context [match ?o with Some _ => _ | None => _ end] => destruct o
             end; simpl in H; try discriminate H;
      match type of H with
      | result_map VModel ?r = _ => destruct r; simpl in H; [|discriminate H]
      end; now injection H as <-.
Qed.

Lemma collect_map_ok {A} (l : list A) : collect (map Ok l) = Ok l.
Proof.
  unfold collect. induction l as [|a l IH]; [reflexivity|].
  simpl. now rewrite IH.
Qed.

(** The serialisation of a validated value that is settled is validated to
    the value. *)
Lemma revalidate pyd members conv fmt t :
  well_formed t = true ->
  forall v x,
    validate pyd members conv t v = Ok x ->
    settled pyd conv fmt t x ->
    validate pyd members conv t (dump fmt t x) = Ok x.
Proof.
  induction t as [ | | | | | | e | t IH | t IH | fields IH ]
    using ftype_induction; intros W v x V S;
    pose proof (validate_shape _ _ _ _ _ _ V) as Sh.
  - destruct x; try discriminate Sh. reflexivity.
  - destruct x; try discriminate Sh. reflexivity.
  - destruct x; try discriminate Sh. reflexivity.
  - destruct x; try discriminate Sh; [reflexivity|].
    simpl in S. simpl. unfold validate_int_or_float.
    destruct pyd; [|reflexivity].
    destruct S as [S|S]; [discriminate S | now rewrite S].
  - destruct x; try discriminate Sh. simpl in S. simpl. now rewrite S.
  - destruct x; try discriminate Sh.
    change (encode fmt (PDict kvs) = PDict kvs) in S.
    change (dump fmt TDict (VDict kvs)) with (encode fmt (PDict kvs)).
    now rewrite S.
  - destruct v; simpl in V; try discriminate V.
    unfold validate_enum in V. destruct (existsb _ _) eqn:E; [|discriminate V].
    injection V as <-. simpl. unfold validate_enum. now rewrite E.
  - simpl in W. apply andb_prop in W as [O W]. apply negb_true_iff in O.
    destruct v; try (injection V as <-; reflexivity);
      (rewrite validate_optional_some in V by discriminate;
       assert (settled pyd conv fmt t x) as S'
         by (pose proof (validate_shape _ _ _ _ _ _ V) as Sh';
             destruct x; try exact S; destruct t; discriminate);
       rewrite dump_optional by exact O;
       pose proof (IH W _ _ V S') as R;
       destruct (dump fmt t x) eqn:D;
       try (rewrite validate_optional_some by discriminate; exact R);
       destruct (validate_not_optional_none pyd members conv t O) as [es N];
       rewrite N in R; discriminate R).
  - destruct v; simpl in V; try discriminate V.
    destruct (validate_items _ 0 l) as [xs|] eqn:I; simpl in V; [|discriminate V].
    injection V as <-. apply validate_items_ok in I.
    simpl in S. simpl.
    assert (validate_items (validate pyd members conv t) 0 (map (dump fmt t) xs)
            = Ok xs) as R; [|now rewrite R].
    apply validate_items_ok. simpl in W.
    clear Sh. induction I as [|v x l xs Hv _ IHI]; [constructor|].
    inversion S; subst. constructor; eauto.
  - destruct (well_formed_fields _ W) as [Nn [Nw FW]].
    assert (exists kvs, construct pyd members conv fields kvs = Ok x) as [kvs Hc].
    { destruct v; simpl in V; try discriminate V;
        try (destruct (to_dict conv _) as [kvs|]; [exists kvs; exact V | discriminate V]).
      exists kvs. exact V. }
    rewrite construct_eq in Hc.
    destruct (collect _) as [xs|] eqn:C; simpl in Hc; [|discriminate Hc].
    injection Hc as <-. apply collect_ok_inv in C.
    pose proof (settled_fields _ _ _ _ _ S) as SF.
    set (E := fun f : field =>
                match dict_get (fname f) xs with
                | Some x' => dump fmt (fty f) x'
                | None => PNone
                end).
    change (construct pyd members conv fields (map (fun f => (wire f, E f)) fields)
            = Ok (VModel xs)).
    rewrite construct_eq.
    rewrite (map_ext_in _ (fun f => named (fname f)
                                      (attr_result pyd members conv f kvs))).
    + rewrite C, collect_map_ok. reflexivity.
    + intros f Hin. f_equal.
      destruct (attrs_lookup _ _ _ _ C Nn Hin) as [xf [Rf Lf]].
      rewrite Rf.
      rewrite Forall_forall in IH, FW, SF.
      destruct (FW f Hin) as [DF Wf].
      destruct (SF f Hin) as [x' [Lx [Sx Cx]]].
      rewrite Lf in Lx. injection Lx as <-.
      apply (revalidate_attr pyd members conv fmt f kvs _ xf DF (IH f Hin Wf) Rf Sx Cx).
      rewrite (dict_get_map_wire E fields f Nw Hin). unfold E. now rewrite Lf.
Qed.

Lemma models_well_formed name cls :
  In (name, cls) models -> well_formed (TModel cls) = true.
Proof.
  assert (forallb (fun m : string * model => well_formed (TModel (snd m))) models
          = true) as H by reflexivity.
  rewrite forallb_forall in H. intros Hin. exact (H _ Hin).
Qed.

(** X13. An entity that was built and is settled is read back from its
    serialisation by alias: constructing the class on the serialised
    attributes gives the same entity.  Settled is what the declarations
    require for it: times that the conversions read as [isoformat] writes
    them, free-form dicts without [datetime] objects, no finite [float]
    amount under pydantic 1, and no [None] in an attribute that does not
    take [None] from a payload. *)
Theorem settled_entity_is_read_back pyd members conv fmt name cls kvs e :
  In (name, cls) models ->
  construct pyd members conv cls kvs = Ok e ->
  settled pyd conv fmt (TModel cls) e ->
  construct pyd members conv cls (dump_attrs fmt cls e) = Ok e.
Proof.
  intros Hm He S.
  destruct (construct_ok_names _ _ _ _ _ _ He) as [xs [-> _]].
  exact (revalidate pyd members conv fmt (TModel cls)
           (models_well_formed _ _ Hm) (PDict kvs) _ He S).
Qed.

Lemma settled_entity_is_read_back_witness :
  In ("Payment", Payment) models
  /\ construct V2 gateway_members timestamps_only Payment sample_payment_response
     = Ok sample_payment_entity
  /\ settled V2 timestamps_only gateway_isoformat (TModel Payment)
       sample_payment_entity
  /\ construct V2 gateway_members timestamps_only Payment
       (dump_attrs gateway_isoformat Payment sample_payment_entity)
     = Ok sample_payment_entity.
Proof.
  assert (In ("Payment", Payment) models) as M by (simpl; tauto).
  assert (settled V2 timestamps_only gateway_isoformat (TModel Payment)
            sample_payment_entity) as S.
  { cbn. repeat split; try reflexivity; try (intros E; discriminate E);
      try (intros _; left; reflexivity).
    left; reflexivity. }
  split; [exact M | split; [reflexivity | split; [exact S|]]].
  exact (settled_entity_is_read_back V2 gateway_members timestamps_only
           gateway_isoformat "Payment" Payment sample_payment_response
           sample_payment_entity M eq_refl S).
Defined.

(** X14. Under pydantic 2 a Transfer built from a payload without
    [platform_fee_amount] is not read back: its serialisation gives the key
    with [None], which the class refuses. *)
Theorem Transfer_without_fee_is_not_read_back members conv fmt kvs e :
  dict_get "platform_fee_amount" kvs = None ->
  construct V2 members conv Transfer kvs = Ok e ->
  exists es,
    construct V2 members conv Transfer (dump_attrs fmt Transfer e) = Err es
    /\ In ([LKey "platform_fee_amount"], NoneNotAllowed) es.
Proof.
  intros H He.
  set (fee := Field "fee_amount" (TModel PaymentAmount) (Some VNone)
                "platform_fee_amount").
  destruct (construct_ok_attr _ _ _ Transfer kvs e fee eq_refl He)
    as [x [Hx Ha]]; [simpl; tauto|].
  rewrite (attr_absent_default _ _ _ fee kvs VNone H eq_refl) in Hx.
  injection Hx as <-.
  destruct (construct_ok_names _ _ _ _ _ _ He) as [xs [-> _]].
  simpl in Ha. apply not_ok_of_error.
  rewrite errors_of_construct, in_flat_map. exists fee. split; [simpl; tauto|].
  rewrite dump_attrs_model. unfold attr_result, validate_attr.
  rewrite (dict_get_map_wire _ Transfer fee eq_refl) by (simpl; tauto).
  cbn [fname fee Field]. rewrite Ha. simpl. now left.
Qed.

Lemma Transfer_without_fee_is_not_read_back_witness :
  dict_get "platform_fee_amount" sample_transfer = None
  /\ is_ok (construct V2 gateway_members timestamps_only Transfer sample_transfer)
     = true
  /\ forall e,
       construct V2 gateway_members timestamps_only Transfer sample_transfer
       = Ok e ->
       exists es,
         construct V2 gateway_members timestamps_only Transfer
           (dump_attrs isoformat Transfer e) = Err es
         /\ In ([LKey "platform_fee_amount"], NoneNotAllowed) es.
Proof.
  split; [reflexivity | split; [reflexivity|]].
  intros e.
  exact (Transfer_without_fee_is_not_read_back gateway_members timestamps_only
           isoformat sample_transfer e eq_refl).
Defined.

(** X15. Under pydantic 1 a PaymentAmount that holds a finite [float] is
    not read back: constructed again on its serialisation, the amount is the
    integer part of the number. *)
Theorem V1_amount_is_truncated_when_read_back members conv fmt kvs e f z :
  construct V1 members conv PaymentAmount kvs = Ok e ->
  attr "value" e = Some (VFloat f) ->
  float_trunc f = Some z ->
  exists c,
    e = stored_amount (VFloat f) c
    /\ construct V1 members conv PaymentAmount (dump_attrs fmt PaymentAmount e)
       = Ok (stored_amount (VInt z) c).
Proof.
  intros He Hv Hz.
  destruct (construct_ok_attr _ _ _ PaymentAmount kvs e
              (required "currency" TStr) eq_refl He) as [xc [Hc Ha]];
    [simpl; tauto|].
  assert (exists c, xc = VStr c) as [c ->].
  { unfold attr_result, validate_attr in Hc.
    destruct (dict_get _ kvs) as [v|]; [|discriminate Hc].
    assert (validate V1 members conv TStr v = Ok xc) as V
      by (destruct v; apply under_ok in Hc; exact Hc).
    apply validate_shape in V. destruct xc; try discriminate V. eauto. }
  destruct (construct_ok_names _ _ _ _ _ _ He) as [xs [-> Hn]].
  destruct xs as [|[n1 x1] [|[n2 x2] [|? ?]]]; try discriminate Hn.
  injection Hn as -> ->. simpl in Hv, Ha.
  injection Hv as ->. injection Ha as ->.
  exists c. split; [reflexivity|].
  rewrite construct_eq. unfold stored_amount. rewrite dump_attrs_model.
  cbn. unfold validate_int_or_float. now rewrite Hz.
Qed.

Lemma V1_amount_is_truncated_when_read_back_witness :
  construct V1 gateway_members timestamps_only PaymentAmount sample_amount
  = Ok (stored_amount (VFloat (float_of_decimal false 10050 2)) "RUB")
  /\ float_trunc (float_of_decimal false 10050 2) = Some 100
  /\ exists c,
       stored_amount (VFloat (float_of_decimal false 10050 2)) "RUB"
       = stored_amount (VFloat (float_of_decimal false 10050 2)) c
       /\ construct V1 gateway_members timestamps_only PaymentAmount
            (dump_attrs isoformat PaymentAmount
               (stored_amount (VFloat (float_of_decimal false 10050 2)) "RUB"))
          = Ok (stored_amount (VInt 100) c).
Proof.
  split; [reflexivity | split; [reflexivity|]].
  exact (V1_amount_is_truncated_when_read_back gateway_members timestamps_only
           isoformat sample_amount _ (float_of_decimal false 10050 2) 100
           eq_refl eq_refl eq_refl).
Defined.

(** ** The payload in the serialised entity *)

Lemma dict_get_In {A} k (d : list (string * A)) v :
  dict_get k d = Some v -> In (k, v) d.
Proof.
  induction d as [|[k' v'] d IH]; simpl; [discriminate|].
  destruct (String.eqb k k') eqn:E; [|auto].
  apply String.eqb_eq in E. intros [= <-]. subst. now left.
Qed.

(** [encode] changes [datetime] objects only. *)
Lemma encode_clean fmt v : json_clean v = true -> encode fmt v = v.
Proof.
  induction v as [ | | | | | | l IH | kvs IH ] using pyval_induction;
    try reflexivity; try discriminate.
  - simpl. intros C. f_equal.
    induction IH as [|x l Hx _ IHl]; [reflexivity|].
    simpl in C. apply andb_prop in C as [C1 C2].
    simpl. now rewrite Hx, IHl.
  - simpl. intros C. f_equal.
    induction IH as [|[k x] l Hx _ IHl]; [reflexivity|].
    simpl in C. apply andb_prop in C as [C1 C2].
    simpl in Hx. simpl. now rewrite Hx, IHl.
Qed.

Lemma within_scalar v w :
  match v with PList _ | PDict _ => False | _ => True end ->
  within v w -> w = v.
Proof. intros S H. now inversion H; subst. Qed.

Lemma within_dict_get kvs w k x :
  within (PDict kvs) w -> dict_get k kvs = Some x ->
  exists kws y, w = PDict kws /\ dict_get k kws = Some y /\ within x y.
Proof.
  intros H G. inversion H as [ v | | kvs' kws F ]; subst.
  - exists kvs, x. repeat split; [assumption | constructor].
  - destruct (F k x G) as [y [Gy Wy]]. exists kws, y. auto.
Qed.

(** A value that validation takes as it is comes out of the serialisation
    held by what is written for it, and as it was when its declared type
    has no class in it. *)
Lemma direct_within pyd members conv fmt t :
  well_formed t = true ->
  forall v x,
    direct pyd t v = true ->
    validate pyd members conv t v = Ok x ->
    within v (dump fmt t x)
    /\ (has_entity t = false -> dump fmt t x = v).
Proof.
  induction t as [ | | | | | | e | t IH | t IH | fields IH ]
    using ftype_induction; intros W v x Dr V.
  - destruct v; try discriminate Dr. injection V as <-.
    split; [constructor | reflexivity].
  - destruct v; try discriminate Dr. injection V as <-.
    split; [constructor | reflexivity].
  - destruct v; try discriminate Dr. injection V as <-.
    split; [constructor | reflexivity].
  - destruct v; try discriminate Dr.
    + injection V as <-. split; [constructor | reflexivity].
    + simpl in Dr, V. unfold validate_int_or_float in V.
      destruct pyd; [destruct (float_trunc f); [discriminate Dr|]|];
        injection V as <-; (split; [constructor | reflexivity]).
  - destruct v; discriminate Dr.
  - destruct v; try discriminate Dr. injection V as <-.
    change (dump fmt TDict (VDict kvs)) with (encode fmt (PDict kvs)).
    rewrite (encode_clean fmt (PDict kvs) Dr).
    split; [constructor | reflexivity].
  - destruct v; try discriminate Dr. simpl in V. unfold validate_enum in V.
    destruct (existsb _ _); [|discriminate V]. injection V as <-.
    split; [constructor | reflexivity].
  - simpl in W. apply andb_prop in W as [O W]. apply negb_true_iff in O.
    destruct v;
      try (rewrite validate_optional_some in V by discriminate;
           rewrite dump_optional by exact O;
           exact (IH W _ _ Dr V)).
    injection V as <-. split; [constructor | reflexivity].
  - destruct v; try discriminate Dr. simpl in V, Dr, W.
    destruct (validate_items _ 0 l) as [xs|] eqn:I; simpl in V; [|discriminate V].
    injection V as <-. apply validate_items_ok in I.
    change (dump fmt (TList t) (VList xs)) with (PList (map (dump fmt t) xs)).
    assert (Forall2 within l (map (dump fmt t) xs)
            /\ (has_entity t = false -> map (dump fmt t) xs = l)) as [F E].
    { induction I as [|v x l xs Hv _ IHI]; [split; [constructor | reflexivity]|].
      simpl in Dr. apply andb_prop in Dr as [D1 D2].
      destruct (IH W _ _ D1 Hv) as [Wv Ev]. destruct (IHI D2) as [Wl El].
      split; [now constructor|].
      intros H. simpl. now rewrite (Ev H), (El H). }
    split; [now apply within_list|].
    intros H. simpl in H. now rewrite (E H).
  - destruct v; try discriminate Dr.
    destruct (well_formed_fields _ W) as [Nn [Nw FW]].
    simpl in Dr. apply andb_prop in Dr as [K Fd].
    rewrite forallb_forall in K, Fd.
    change (construct pyd members conv fields kvs = Ok x) in V.
    rewrite construct_eq in V.
    destruct (collect _) as [xs|] eqn:C; simpl in V; [|discriminate V].
    injection V as <-. apply collect_ok_inv in C.
    split; [|discriminate].
    set (E := fun f : field =>
                match dict_get (fname f) xs with
                | Some x' => dump fmt (fty f) x'
                | None => PNone
                end).
    change (within (PDict kvs) (PDict (map (fun f => (wire f, E f)) fields))).
    apply within_dict. intros k y G.
    pose proof (K _ (dict_get_In _ _ _ G)) as Hk.
    apply existsb_exists in Hk as [f [Hin Hw]].
    apply String.eqb_eq in Hw. simpl in Hw. subst k.
    exists (E f). split; [exact (dict_get_map_wire E fields f Nw Hin)|].
    destruct (attrs_lookup _ _ _ _ C Nn Hin) as [xf [Rf Lf]].
    unfold E. rewrite Lf.
    rewrite Forall_forall in IH, FW.
    destruct (FW f Hin) as [_ Wf].
    specialize (Fd f Hin). rewrite G in Fd.
    unfold attr_result, validate_attr in Rf. rewrite G in Rf.
    destruct y; try (apply under_ok in Rf; exact (proj1 (IH f Hin Wf _ _ Fd Rf))).
    destruct (allow_none pyd f).
    + injection Rf as <-. rewrite dump_none. constructor.
    + apply under_ok in Rf. exact (proj1 (IH f Hin Wf _ _ Fd Rf)).
Qed.

(** C9, as the code has it.  When a payload is accepted, the entity
    serialised by alias has the wire keys of the declared attributes, all of
    them and no other, in declaration order; under each it holds the
    serialisation of the attribute.  An item of the payload under a declared
    wire key is found again when validation takes its value as it is: a
    scalar that is an instance of the declared type, a free-form dict, a
    list of such values, or a nested entity given under wire keys of its
    class with such values.  It is found as it was when no class is in its
    type; a nested entity comes out with every declared key, those the
    payload gave holding what it gave.  A payload made of such items only is
    held by the serialised entity as a whole.  Nothing is said of the other
    items: keys a class does not declare are not kept, and values that
    validation converts come out converted. *)
Theorem serialisation_by_alias pyd members conv fmt name cls kvs e :
  In (name, cls) models ->
  construct pyd members conv cls kvs = Ok e ->
  map fst (dump_attrs fmt cls e) = map wire cls
  /\ (forall f, In f cls ->
        exists x, attr (fname f) e = Some x
                  /\ In (wire f, dump fmt (fty f) x) (dump_attrs fmt cls e))
  /\ (forall f v, In f cls ->
        dict_get (wire f) kvs = Some v -> plain (fty f) v = true ->
        In (wire f, v) (dump_attrs fmt cls e))
  /\ (forall f v, In f cls ->
        dict_get (wire f) kvs = Some v -> direct_attr pyd f v = true ->
        exists w, In (wire f, w) (dump_attrs fmt cls e)
                  /\ within v w
                  /\ (has_entity (fty f) = false -> w = v))
  /\ (direct pyd (TModel cls) (PDict kvs) = true ->
      within (PDict kvs) (PDict (dump_attrs fmt cls e))).
Proof.
  intros Hm He. destruct (models_distinct _ _ Hm) as [Nn _].
  pose proof (models_well_formed _ _ Hm) as W.
  pose proof He as He'.
  destruct (construct_ok_names _ _ _ _ _ _ He) as [xs [-> Hn]].
  rewrite dump_attrs_model.
  assert (forall f, In f cls ->
            exists x, attr_result pyd members conv f kvs = Ok x
                      /\ dict_get (fname f) xs = Some x
                      /\ In (wire f, dump fmt (fty f) x)
                            (map (fun f => (wire f,
                                   match dict_get (fname f) xs with
                                   | Some x' => dump fmt (fty f) x'
                                   | None => PNone
                                   end)) cls)) as A.
  { intros f Hin.
    destruct (construct_ok_attr _ _ _ cls kvs _ f Nn He Hin) as [x [Hx Ha]].
    exists x. split; [assumption | split; [assumption|]].
    apply in_map_iff. exists f. split; [|assumption].
    simpl in Ha. now rewrite Ha. }
  split; [|split; [|split; [|split]]].
  - rewrite map_map. reflexivity.
  - intros f Hin. destruct (A f Hin) as [x [_ [Ha Hd]]]. eauto.
  - intros f v Hin Hv P. destruct (A f Hin) as [x [Hx [_ Hd]]].
    replace v with (dump fmt (fty f) x); [exact Hd|].
    unfold attr_result, validate_attr in Hx. rewrite Hv in Hx.
    destruct v;
      try (apply under_ok in Hx; exact (plain_roundtrip _ _ _ fmt _ _ _ P Hx (fty f))).
    destruct (allow_none pyd f).
    + injection Hx as <-. now destruct (fty f).
    + apply under_ok in Hx. exact (plain_roundtrip _ _ _ fmt _ _ _ P Hx (fty f)).
  - intros f v Hin Hv Dr. destruct (A f Hin) as [x [Hx [_ Hd]]].
    exists (dump fmt (fty f) x). split; [exact Hd|].
    destruct (well_formed_fields _ W) as [_ [_ FW]].
    rewrite Forall_forall in FW. destruct (FW f Hin) as [_ Wf].
    unfold attr_result, validate_attr in Hx. rewrite Hv in Hx.
    unfold direct_attr in Dr.
    destruct v;
      try (apply under_ok in Hx;
           exact (direct_within pyd members conv fmt _ Wf _ _ Dr Hx)).
    destruct (allow_none pyd f).
    + injection Hx as <-. rewrite dump_none. split; [constructor | reflexivity].
    + apply under_ok in Hx.
      exact (direct_within pyd members conv fmt _ Wf _ _ Dr Hx).
  - intros Dr.
    exact (proj1 (direct_within pyd members conv fmt (TModel cls) W _ _ Dr He')).
Qed.

Lemma serialisation_by_alias_witness :
  In ("Payment", Payment) models
  /\ construct V2 gateway_members timestamps_only Payment sample_payment_response
     = Ok sample_payment_entity
  /\ map fst (dump_attrs (json_datetime V2) Payment sample_payment_entity)
     = map wire Payment
  /\ dict_get "id" sample_payment_response
     = Some (PStr "22e12f66-000f-5000-8000-18db351245c7")
  /\ plain TStr (PStr "22e12f66-000f-5000-8000-18db351245c7") = true
  /\ In ("id", PStr "22e12f66-000f-5000-8000-18db351245c7")
        (dump_attrs (json_datetime V2) Payment sample_payment_entity)
  /\ dict_get "recipient" sample_payment_response
     = Some (PDict [ ("account_id", PStr "100500"); ("gateway_id", PStr "100700") ])
  /\ direct_attr V2 (required "recipient" (TModel Recipient))
       (PDict [ ("account_id", PStr "100500"); ("gateway_id", PStr "100700") ])
     = true
  /\ (exists w,
        In ("recipient", w)
           (dump_attrs (json_datetime V2) Payment sample_payment_entity)
        /\ within (PDict [ ("account_id", PStr "100500");
                           ("gateway_id", PStr "100700") ]) w)
  /\ dict_get "metadata" sample_payment_response = Some (PDict [])
  /\ direct_attr V2 (optional "metadata" (TOptional TDict)) (PDict []) = true
  /\ In ("metadata", PDict [])
        (dump_attrs (json_datetime V2) Payment sample_payment_entity).
Proof.
  assert (In ("Payment", Payment) models) as M by (simpl; tauto).
  pose proof (serialisation_by_alias V2 gateway_members timestamps_only
                (json_datetime V2) "Payment" Payment sample_payment_response
                sample_payment_entity M eq_refl) as (K & _ & P & D & _).
  split; [exact M | split; [reflexivity | split; [exact K|]]].
  split; [reflexivity | split; [reflexivity|]].
  split.
  { exact (P (required "id" TStr) (PStr "22e12f66-000f-5000-8000-18db351245c7")
             (or_introl eq_refl) eq_refl eq_refl). }
  split; [reflexivity | split; [reflexivity|]].
  split.
  { destruct (D (required "recipient" (TModel Recipient))
                (PDict [ ("account_id", PStr "100500"); ("gateway_id", PStr "100700") ])
                ltac:(simpl; tauto) eq_refl eq_refl) as (w & I & Wi & _).
    exists w. split; assumption. }
  split; [reflexivity | split; [reflexivity|]].
  destruct (D (optional "metadata" (TOptional TDict)) (PDict [])
              ltac:(simpl; tauto) eq_refl eq_refl) as (w & I & _ & E).
  rewrite (E eq_refl) in I. exact I.
Defined.

(** The round trip fails on a payment that is accepted, under either
    version, the entity being written as the version writes it: the item
    [invoice_details], which class Payment does not declare, is not in the
    serialised entity; the amount written "100.50" comes out as the float
    100.5; and the creation time "2018-07-18T10:51:18.139Z" comes out with
    its microseconds, and under pydantic 1 with the offset written out. *)
Lemma roundtrip_loses_items :
  construct V1 gateway_members timestamps_only Payment sample_payment_response
  = Ok sample_payment_entity
  /\ construct V2 gateway_members timestamps_only Payment sample_payment_response
     = Ok sample_payment_entity
  /\ In ("invoice_details", invoice_details) sample_payment_response
  /\ ~ In ("invoice_details", invoice_details)
          (dump_attrs (json_datetime V1) Payment sample_payment_entity)
  /\ ~ In ("invoice_details", invoice_details)
          (dump_attrs (json_datetime V2) Payment sample_payment_entity)
  /\ In ("amount", PDict sample_amount) sample_payment_response
  /\ dict_get "amount" (dump_attrs (json_datetime V1) Payment sample_payment_entity)
     = Some (PDict (amount_of (PFloat (float_of_decimal false 10050 2)) "RUB"))
  /\ dict_get "amount" (dump_attrs (json_datetime V2) Payment sample_payment_entity)
     = Some (PDict (amount_of (PFloat (float_of_decimal false 10050 2)) "RUB"))
  /\ In ("created_at", PStr "2018-07-18T10:51:18.139Z") sample_payment_response
  /\ dict_get "created_at"
       (dump_attrs (json_datetime V1) Payment sample_payment_entity)
     = Some (PStr "2018-07-18T10:51:18.139000+00:00")
  /\ dict_get "created_at"
       (dump_attrs (json_datetime V2) Payment sample_payment_entity)
     = Some (PStr "2018-07-18T10:51:18.139000Z")
  /\ ~ within (PDict sample_payment_response)
          (PDict (dump_attrs (json_datetime V1) Payment sample_payment_entity))
  /\ ~ within (PDict sample_payment_response)
          (PDict (dump_attrs (json_datetime V2) Payment sample_payment_entity)).
Proof.
  assert (forall fmt,
            ~ In ("invoice_details", invoice_details)
                 (dump_attrs fmt Payment sample_payment_entity)) as NI.
  { intros fmt H. apply (in_map fst) in H.
    change (map fst (dump_attrs fmt Payment sample_payment_entity))
      with (map wire Payment) in H.
    vm_compute in H.
    repeat (destruct H as [H|H]; [discriminate H|]). exact H. }
  assert (forall fmt,
            ~ within (PDict sample_payment_response)
                (PDict (dump_attrs fmt Payment sample_payment_entity))) as NW.
  { intros fmt H.
    destruct (within_dict_get _ _ "invoice_details" invoice_details H eq_refl)
      as (kws & y & E & G & _).
    injection E as <-. apply dict_get_In_key in G.
    change (map fst (dump_attrs fmt Payment sample_payment_entity))
      with (map wire Payment) in G.
    vm_compute in G.
    repeat (destruct G as [G|G]; [discriminate G|]). exact G. }
  split; [reflexivity|]. split; [reflexivity|].
  split; [simpl; tauto|].
  split; [apply NI|]. split; [apply NI|].
  split; [simpl; tauto|].
  split; [reflexivity|]. split; [reflexivity|].
  split; [simpl; tauto|].
  split; [reflexivity|]. split; [reflexivity|].
  split; apply NW.
Qed.

(** An Airline payload gives its flights under [legs] and gets them back
    under [legs]. *)
Example Airline_legs :
  option_map (dump_attrs isoformat Airline)
    (match construct V2 gateway_members timestamps_only Airline
             [ ("ticket_number", PStr "5554916004417");
               ("legs", PList [ PDict [ ("departure_airport", PStr "LED");
                                        ("arrival_airport", PStr "AMS");
                                        ("departure_date",
                                         PDatetime (mk_datetime 2018 6 20 0 0 0 0 None)) ] ]) ]
     with Ok e => Some e | Err _ => None end)
  = Some [ ("ticket_number", PStr "5554916004417");
           ("booking_reference", PNone);
           ("passengers", PNone);
           ("legs", PList [ PDict [ ("departure_airport", PStr "LED");
                                    ("arrival_airport", PStr "AMS");
                                    ("departure_date", PStr "2018-06-20T00:00:00");
                                    ("carrier_code", PNone) ] ]) ].
Proof. reflexivity. Qed.
